(** * HY-Motion microservice (api.py): runtime lifecycle and request pipeline

    A shallow embedding of [api.py]: the lazily created process-wide
    [_runtime] singleton, the MMGP offload policy, the tensor serializer and
    the [POST /v1/motion] endpoint.  Python code that mutates module globals
    or prints is embedded in a state-and-exception monad [py]; the external
    collaborators (file system, [os.environ], the [T2MRuntime] class, the
    [mmgp] library) are the fields of a [World] record that every function
    receives. *)

From Stdlib Require Import ZArith String Ascii List Floats Lia Bool.
From stdpp Require Import base option list gmap strings pretty.

Set Warnings "-register-all".

Local Open Scope string_scope.
Local Open Scope Z_scope.

(** ** Python built-ins *)

Module Py.

(** The exception classes that occur in [api.py] or that its
    collaborators are known to raise.  [KeyboardInterrupt] and [SystemExit]
    derive from [BaseException] only. *)
Inductive exn_class : Type :=
| FileNotFoundError
| ImportError
| ModuleNotFoundError
| ValueError
| TypeError
| KeyError
| IndexError
| AttributeError
| OSError
| RuntimeError
| KeyboardInterrupt
| SystemExit.

(** An exception instance: a built-in exception with its message, or
    FastAPI's [HTTPException(status_code, detail)]. *)
Inductive exn : Type :=
| Exn (cls : exn_class) (msg : string)
| HTTPException (status_code : Z) (detail : string).

(** [isinstance(e, Exception)] *)
Definition is_Exception (e : exn) : bool :=
  match e with
  | Exn KeyboardInterrupt _ | Exn SystemExit _ => false
  | _ => true
  end.

(** [isinstance(e, ImportError)]; [ModuleNotFoundError] is a subclass. *)
Definition is_ImportError (e : exn) : bool :=
  match e with
  | Exn ImportError _ | Exn ModuleNotFoundError _ => true
  | _ => false
  end.

(** [isinstance(e, FileNotFoundError)] *)
Definition is_FileNotFoundError (e : exn) : bool :=
  match e with
  | Exn FileNotFoundError _ => true
  | _ => false
  end.

(** [str(e)], as interpolated by the f-strings of the module. *)
Definition str (e : exn) : string :=
  match e with
  | Exn _ msg => msg
  | HTTPException c d => pretty c ++ ": " ++ d
  end.

(** The result of evaluating a Python expression. *)
Inductive outcome (A : Type) : Type :=
| Return (a : A)
| Raise (e : exn).
Arguments Return {A} a.
Arguments Raise {A} e.

(** [str.lower] on the ASCII range.  Environment values are byte strings
    here; no character outside ASCII lowers to one of the letters of
    ["true"], so comparisons of the result with ["true"] are exact. *)
Definition lower_ascii (c : ascii) : ascii :=
  let n := nat_of_ascii c in
  if (Nat.leb 65 n && Nat.leb n 90)%bool then ascii_of_nat (n + 32) else c.

Fixpoint lower (s : string) : string :=
  match s with
  | EmptyString => EmptyString
  | String c s' => String (lower_ascii c) (lower s')
  end.

(** [posixpath.join(a, b)] for two components. *)
Definition startswith_slash (s : string) : bool :=
  match s with
  | String c _ => Ascii.eqb c "/"
  | EmptyString => false
  end.

Fixpoint endswith_slash (s : string) : bool :=
  match s with
  | EmptyString => false
  | String c EmptyString => Ascii.eqb c "/"
  | String _ s' => endswith_slash s'
  end.

Definition path_join (a b : string) : string :=
  if startswith_slash b then b
  else if (String.eqb a "" || endswith_slash a)%bool then a ++ b
  else a ++ "/" ++ b.

(** *** Text

    A [string] here is the UTF-8 byte string of a Python [str].  Where
    Python works on characters, the bytes are decoded first, the way
    [os.environ] decodes them: UTF-8 with the [surrogateescape] handler, under
    which a byte that does not belong to a well-formed sequence becomes the
    lone surrogate [U+DC00 + byte]. *)

Definition byte (c : ascii) : Z := Z.of_nat (nat_of_ascii c).

Definition in_range (lo hi x : Z) : bool := ((lo <=? x) && (x <=? hi))%bool.

Definition is_cont (b : Z) : bool := in_range 128 191 b.

(** The second byte admitted after the lead byte of a three-byte and of a
    four-byte sequence: no overlong forms, no encoded surrogates, nothing
    above U+10FFFF. *)
Definition second_of_three (b0 b1 : Z) : bool :=
  ((b0 =? 224) && in_range 160 191 b1
   || in_range 225 236 b0 && is_cont b1
   || (b0 =? 237) && in_range 128 159 b1
   || in_range 238 239 b0 && is_cont b1)%bool.

Definition second_of_four (b0 b1 : Z) : bool :=
  ((b0 =? 240) && in_range 144 191 b1
   || in_range 241 243 b0 && is_cont b1
   || (b0 =? 244) && in_range 128 143 b1)%bool.

Fixpoint decode_bytes (bs : list Z) : list Z :=
  match bs with
  | [] => []
  | b0 :: rest =>
      if b0 <? 128 then b0 :: decode_bytes rest
      else
        let escaped := fun _ : unit => (56320 + b0) :: decode_bytes rest in
        match rest with
        | [] => escaped tt
        | b1 :: rest1 =>
            if (in_range 194 223 b0 && is_cont b1)%bool
            then ((b0 - 192) * 64 + (b1 - 128)) :: decode_bytes rest1
            else
              match rest1 with
              | [] => escaped tt
              | b2 :: rest2 =>
                  if (second_of_three b0 b1 && is_cont b2)%bool
                  then ((b0 - 224) * 4096 + (b1 - 128) * 64 + (b2 - 128))
                         :: decode_bytes rest2
                  else
                    match rest2 with
                    | [] => escaped tt
                    | b3 :: rest3 =>
                        if (second_of_four b0 b1 && is_cont b2 && is_cont b3)%bool
                        then ((b0 - 240) * 262144 + (b1 - 128) * 4096
                              + (b2 - 128) * 64 + (b3 - 128))
                               :: decode_bytes rest3
                        else escaped tt
                    end
              end
        end
  end.

(** The characters of a text, as code points. *)
Definition decode (s : string) : list Z :=
  decode_bytes (map byte (list_ascii_of_string s)).

Definition chr (b : Z) : ascii := ascii_of_nat (Z.to_nat b).

(** The UTF-8 bytes of a character that is not a surrogate. *)
Definition encode_char (cp : Z) : list ascii :=
  if cp <? 128 then [chr cp]
  else if cp <? 2048 then [chr (192 + cp / 64); chr (128 + cp mod 64)]
  else if cp <? 65536
  then [chr (224 + cp / 4096); chr (128 + (cp / 64) mod 64); chr (128 + cp mod 64)]
  else [chr (240 + cp / 262144); chr (128 + (cp / 4096) mod 64);
        chr (128 + (cp / 64) mod 64); chr (128 + cp mod 64)].

Definition encode (cps : list Z) : string :=
  string_of_list_ascii (concat (map encode_char cps)).

(** [len(s)] *)
Definition len (s : string) : nat := length (decode s).

(** The character tables of Unicode 14.0, the version CPython 3.11 carries:
    the zero of every run of ten decimal digits outside ASCII, the
    whitespace characters from U+007F on, and the ranges of characters from
    U+0080 on that [str.isprintable] refuses. *)
Definition decimal_zeros : list Z :=
  [
   1632; 1776; 1984; 2406; 2534; 2662; 2790; 2918; 3046; 3174; 3302; 3430;
   3558; 3664; 3792; 3872; 4160; 4240; 6112; 6160; 6470; 6608; 6784; 6800;
   6992; 7088; 7232; 7248; 42528; 43216; 43264; 43472; 43504; 43600; 44016;
   65296; 66720; 68912; 69734; 69872; 69942; 70096; 70384; 70736; 70864;
   71248; 71360; 71472; 71904; 72016; 72784; 73040; 73120; 92768; 92864;
   93008; 120782; 120792; 120802; 120812; 120822; 123200; 123632; 125264;
   130032
  ].

Definition unicode_spaces : list Z :=
  [
   133; 160; 5760; 8192; 8193; 8194; 8195; 8196; 8197; 8198; 8199; 8200;
   8201; 8202; 8232; 8233; 8239; 8287; 12288
  ].

Definition unprintable : list (Z * Z) :=
  [
   (128, 160); (173, 173); (888, 889); (896, 899); (907, 907); (909, 909);
   (930, 930); (1328, 1328); (1367, 1368); (1419, 1420); (1424, 1424);
   (1480, 1487); (1515, 1518); (1525, 1541); (1564, 1564); (1757, 1757);
   (1806, 1807); (1867, 1868); (1970, 1983); (2043, 2044); (2094, 2095);
   (2111, 2111); (2140, 2141); (2143, 2143); (2155, 2159); (2191, 2199);
   (2274, 2274); (2436, 2436); (2445, 2446); (2449, 2450); (2473, 2473);
   (2481, 2481); (2483, 2485); (2490, 2491); (2501, 2502); (2505, 2506);
   (2511, 2518); (2520, 2523); (2526, 2526); (2532, 2533); (2559, 2560);
   (2564, 2564); (2571, 2574); (2577, 2578); (2601, 2601); (2609, 2609);
   (2612, 2612); (2615, 2615); (2618, 2619); (2621, 2621); (2627, 2630);
   (2633, 2634); (2638, 2640); (2642, 2648); (2653, 2653); (2655, 2661);
   (2679, 2688); (2692, 2692); (2702, 2702); (2706, 2706); (2729, 2729);
   (2737, 2737); (2740, 2740); (2746, 2747); (2758, 2758); (2762, 2762);
   (2766, 2767); (2769, 2783); (2788, 2789); (2802, 2808); (2816, 2816);
   (2820, 2820); (2829, 2830); (2833, 2834); (2857, 2857); (2865, 2865);
   (2868, 2868); (2874, 2875); (2885, 2886); (2889, 2890); (2894, 2900);
   (2904, 2907); (2910, 2910); (2916, 2917); (2936, 2945); (2948, 2948);
   (2955, 2957); (2961, 2961); (2966, 2968); (2971, 2971); (2973, 2973);
   (2976, 2978); (2981, 2983); (2987, 2989); (3002, 3005); (3011, 3013);
   (3017, 3017); (3022, 3023); (3025, 3030); (3032, 3045); (3067, 3071);
   (3085, 3085); (3089, 3089); (3113, 3113); (3130, 3131); (3141, 3141);
   (3145, 3145); (3150, 3156); (3159, 3159); (3163, 3164); (3166, 3167);
   (3172, 3173); (3184, 3190); (3213, 3213); (3217, 3217); (3241, 3241);
   (3252, 3252); (3258, 3259); (3269, 3269); (3273, 3273); (3278, 3284);
   (3287, 3292); (3295, 3295); (3300, 3301); (3312, 3312); (3315, 3327);
   (3341, 3341); (3345, 3345); (3397, 3397); (3401, 3401); (3408, 3411);
   (3428, 3429); (3456, 3456); (3460, 3460); (3479, 3481); (3506, 3506);
   (3516, 3516); (3518, 3519); (3527, 3529); (3531, 3534); (3541, 3541);
   (3543, 3543); (3552, 3557); (3568, 3569); (3573, 3584); (3643, 3646);
   (3676, 3712); (3715, 3715); (3717, 3717); (3723, 3723); (3748, 3748);
   (3750, 3750); (3774, 3775); (3781, 3781); (3783, 3783); (3790, 3791);
   (3802, 3803); (3808, 3839); (3912, 3912); (3949, 3952); (3992, 3992);
   (4029, 4029); (4045, 4045); (4059, 4095); (4294, 4294); (4296, 4300);
   (4302, 4303); (4681, 4681); (4686, 4687); (4695, 4695); (4697, 4697);
   (4702, 4703); (4745, 4745); (4750, 4751); (4785, 4785); (4790, 4791);
   (4799, 4799); (4801, 4801); (4806, 4807); (4823, 4823); (4881, 4881);
   (4886, 4887); (4955, 4956); (4989, 4991); (5018, 5023); (5110, 5111);
   (5118, 5119); (5760, 5760); (5789, 5791); (5881, 5887); (5910, 5918);
   (5943, 5951); (5972, 5983); (5997, 5997); (6001, 6001); (6004, 6015);
   (6110, 6111); (6122, 6127); (6138, 6143); (6158, 6158); (6170, 6175);
   (6265, 6271); (6315, 6319); (6390, 6399); (6431, 6431); (6444, 6447);
   (6460, 6463); (6465, 6467); (6510, 6511); (6517, 6527); (6572, 6575);
   (6602, 6607); (6619, 6621); (6684, 6685); (6751, 6751); (6781, 6782);
   (6794, 6799); (6810, 6815); (6830, 6831); (6863, 6911); (6989, 6991);
   (7039, 7039); (7156, 7163); (7224, 7226); (7242, 7244); (7305, 7311);
   (7355, 7356); (7368, 7375); (7419, 7423); (7958, 7959); (7966, 7967);
   (8006, 8007); (8014, 8015); (8024, 8024); (8026, 8026); (8028, 8028);
   (8030, 8030); (8062, 8063); (8117, 8117); (8133, 8133); (8148, 8149);
   (8156, 8156); (8176, 8177); (8181, 8181); (8191, 8207); (8232, 8239);
   (8287, 8303); (8306, 8307); (8335, 8335); (8349, 8351); (8385, 8399);
   (8433, 8447); (8588, 8591); (9255, 9279); (9291, 9311); (11124, 11125);
   (11158, 11158); (11508, 11512); (11558, 11558); (11560, 11564);
   (11566, 11567); (11624, 11630); (11633, 11646); (11671, 11679);
   (11687, 11687); (11695, 11695); (11703, 11703); (11711, 11711);
   (11719, 11719); (11727, 11727); (11735, 11735); (11743, 11743);
   (11870, 11903); (11930, 11930); (12020, 12031); (12246, 12271);
   (12284, 12288); (12352, 12352); (12439, 12440); (12544, 12548);
   (12592, 12592); (12687, 12687); (12772, 12783); (12831, 12831);
   (42125, 42127); (42183, 42191); (42540, 42559); (42744, 42751);
   (42955, 42959); (42962, 42962); (42964, 42964); (42970, 42993);
   (43053, 43055); (43066, 43071); (43128, 43135); (43206, 43213);
   (43226, 43231); (43348, 43358); (43389, 43391); (43470, 43470);
   (43482, 43485); (43519, 43519); (43575, 43583); (43598, 43599);
   (43610, 43611); (43715, 43738); (43767, 43776); (43783, 43784);
   (43791, 43792); (43799, 43807); (43815, 43815); (43823, 43823);
   (43884, 43887); (44014, 44015); (44026, 44031); (55204, 55215);
   (55239, 55242); (55292, 63743); (64110, 64111); (64218, 64255);
   (64263, 64274); (64280, 64284); (64311, 64311); (64317, 64317);
   (64319, 64319); (64322, 64322); (64325, 64325); (64451, 64466);
   (64912, 64913); (64968, 64974); (64976, 65007); (65050, 65055);
   (65107, 65107); (65127, 65127); (65132, 65135); (65141, 65141);
   (65277, 65280); (65471, 65473); (65480, 65481); (65488, 65489);
   (65496, 65497); (65501, 65503); (65511, 65511); (65519, 65531);
   (65534, 65535); (65548, 65548); (65575, 65575); (65595, 65595);
   (65598, 65598); (65614, 65615); (65630, 65663); (65787, 65791);
   (65795, 65798); (65844, 65846); (65935, 65935); (65949, 65951);
   (65953, 65999); (66046, 66175); (66205, 66207); (66257, 66271);
   (66300, 66303); (66340, 66348); (66379, 66383); (66427, 66431);
   (66462, 66462); (66500, 66503); (66518, 66559); (66718, 66719);
   (66730, 66735); (66772, 66775); (66812, 66815); (66856, 66863);
   (66916, 66926); (66939, 66939); (66955, 66955); (66963, 66963);
   (66966, 66966); (66978, 66978); (66994, 66994); (67002, 67002);
   (67005, 67071); (67383, 67391); (67414, 67423); (67432, 67455);
   (67462, 67462); (67505, 67505); (67515, 67583); (67590, 67591);
   (67593, 67593); (67638, 67638); (67641, 67643); (67645, 67646);
   (67670, 67670); (67743, 67750); (67760, 67807); (67827, 67827);
   (67830, 67834); (67868, 67870); (67898, 67902); (67904, 67967);
   (68024, 68027); (68048, 68049); (68100, 68100); (68103, 68107);
   (68116, 68116); (68120, 68120); (68150, 68151); (68155, 68158);
   (68169, 68175); (68185, 68191); (68256, 68287); (68327, 68330);
   (68343, 68351); (68406, 68408); (68438, 68439); (68467, 68471);
   (68498, 68504); (68509, 68520); (68528, 68607); (68681, 68735);
   (68787, 68799); (68851, 68857); (68904, 68911); (68922, 69215);
   (69247, 69247); (69290, 69290); (69294, 69295); (69298, 69375);
   (69416, 69423); (69466, 69487); (69514, 69551); (69580, 69599);
   (69623, 69631); (69710, 69713); (69750, 69758); (69821, 69821);
   (69827, 69839); (69865, 69871); (69882, 69887); (69941, 69941);
   (69960, 69967); (70007, 70015); (70112, 70112); (70133, 70143);
   (70162, 70162); (70207, 70271); (70279, 70279); (70281, 70281);
   (70286, 70286); (70302, 70302); (70314, 70319); (70379, 70383);
   (70394, 70399); (70404, 70404); (70413, 70414); (70417, 70418);
   (70441, 70441); (70449, 70449); (70452, 70452); (70458, 70458);
   (70469, 70470); (70473, 70474); (70478, 70479); (70481, 70486);
   (70488, 70492); (70500, 70501); (70509, 70511); (70517, 70655);
   (70748, 70748); (70754, 70783); (70856, 70863); (70874, 71039);
   (71094, 71095); (71134, 71167); (71237, 71247); (71258, 71263);
   (71277, 71295); (71354, 71359); (71370, 71423); (71451, 71452);
   (71468, 71471); (71495, 71679); (71740, 71839); (71923, 71934);
   (71943, 71944); (71946, 71947); (71956, 71956); (71959, 71959);
   (71990, 71990); (71993, 71994); (72007, 72015); (72026, 72095);
   (72104, 72105); (72152, 72153); (72165, 72191); (72264, 72271);
   (72355, 72367); (72441, 72703); (72713, 72713); (72759, 72759);
   (72774, 72783); (72813, 72815); (72848, 72849); (72872, 72872);
   (72887, 72959); (72967, 72967); (72970, 72970); (73015, 73017);
   (73019, 73019); (73022, 73022); (73032, 73039); (73050, 73055);
   (73062, 73062); (73065, 73065); (73103, 73103); (73106, 73106);
   (73113, 73119); (73130, 73439); (73465, 73647); (73649, 73663);
   (73714, 73726); (74650, 74751); (74863, 74863); (74869, 74879);
   (75076, 77711); (77811, 77823); (78895, 82943); (83527, 92159);
   (92729, 92735); (92767, 92767); (92778, 92781); (92863, 92863);
   (92874, 92879); (92910, 92911); (92918, 92927); (92998, 93007);
   (93018, 93018); (93026, 93026); (93048, 93052); (93072, 93759);
   (93851, 93951); (94027, 94030); (94088, 94094); (94112, 94175);
   (94181, 94191); (94194, 94207); (100344, 100351); (101590, 101631);
   (101641, 110575); (110580, 110580); (110588, 110588); (110591, 110591);
   (110883, 110927); (110931, 110947); (110952, 110959); (111356, 113663);
   (113771, 113775); (113789, 113791); (113801, 113807); (113818, 113819);
   (113824, 118527); (118574, 118575); (118599, 118607); (118724, 118783);
   (119030, 119039); (119079, 119080); (119155, 119162); (119275, 119295);
   (119366, 119519); (119540, 119551); (119639, 119647); (119673, 119807);
   (119893, 119893); (119965, 119965); (119968, 119969); (119971, 119972);
   (119975, 119976); (119981, 119981); (119994, 119994); (119996, 119996);
   (120004, 120004); (120070, 120070); (120075, 120076); (120085, 120085);
   (120093, 120093); (120122, 120122); (120127, 120127); (120133, 120133);
   (120135, 120137); (120145, 120145); (120486, 120487); (120780, 120781);
   (121484, 121498); (121504, 121504); (121520, 122623); (122655, 122879);
   (122887, 122887); (122905, 122906); (122914, 122914); (122917, 122917);
   (122923, 123135); (123181, 123183); (123198, 123199); (123210, 123213);
   (123216, 123535); (123567, 123583); (123642, 123646); (123648, 124895);
   (124903, 124903); (124908, 124908); (124911, 124911); (124927, 124927);
   (125125, 125126); (125143, 125183); (125260, 125263); (125274, 125277);
   (125280, 126064); (126133, 126208); (126270, 126463); (126468, 126468);
   (126496, 126496); (126499, 126499); (126501, 126502); (126504, 126504);
   (126515, 126515); (126520, 126520); (126522, 126522); (126524, 126529);
   (126531, 126534); (126536, 126536); (126538, 126538); (126540, 126540);
   (126544, 126544); (126547, 126547); (126549, 126550); (126552, 126552);
   (126554, 126554); (126556, 126556); (126558, 126558); (126560, 126560);
   (126563, 126563); (126565, 126566); (126571, 126571); (126579, 126579);
   (126584, 126584); (126589, 126589); (126591, 126591); (126602, 126602);
   (126620, 126624); (126628, 126628); (126634, 126634); (126652, 126703);
   (126706, 126975); (127020, 127023); (127124, 127135); (127151, 127152);
   (127168, 127168); (127184, 127184); (127222, 127231); (127406, 127461);
   (127491, 127503); (127548, 127551); (127561, 127567); (127570, 127583);
   (127590, 127743); (128728, 128732); (128749, 128751); (128765, 128767);
   (128884, 128895); (128985, 128991); (129004, 129007); (129009, 129023);
   (129036, 129039); (129096, 129103); (129114, 129119); (129160, 129167);
   (129198, 129199); (129202, 129279); (129620, 129631); (129646, 129647);
   (129653, 129655); (129661, 129663); (129671, 129679); (129709, 129711);
   (129723, 129727); (129734, 129743); (129754, 129759); (129768, 129775);
   (129783, 129791); (129939, 129939); (129995, 130031); (130042, 131071);
   (173792, 173823); (177977, 177983); (178206, 178207); (183970, 183983);
   (191457, 194559); (195102, 196607); (201547, 917759); (918000, 1114111)
  ].

Definition hex_digit (n : Z) : Z := if n <? 10 then 48 + n else 87 + n.

Fixpoint hex (width : nat) (n : Z) : list Z :=
  match width with
  | O => []
  | S w => (hex w (n / 16) ++ [hex_digit (n mod 16)])%list
  end.

Definition is_unprintable (cp : Z) : bool :=
  existsb (fun r => in_range r.1 r.2 cp) unprintable.

(** [repr(s)] for a [str]: the quote that needs no escaping where there is
    one, backslash escapes for the quote, the backslash, tab, newline and
    return, and hexadecimal escapes for what is not printable. *)
Definition repr_char (quote : Z) (cp : Z) : list Z :=
  if ((cp =? quote) || (cp =? 92))%bool then [92; cp]
  else if cp =? 9 then [92; 116]
  else if cp =? 10 then [92; 110]
  else if cp =? 13 then [92; 114]
  else if ((cp <? 32) || (cp =? 127))%bool then (92 :: 120 :: hex 2 cp)
  else if cp <? 127 then [cp]
  else if negb (is_unprintable cp) then [cp]
  else if cp <? 256 then (92 :: 120 :: hex 2 cp)
  else if cp <? 65536 then (92 :: 117 :: hex 4 cp)
  else (92 :: 85 :: hex 8 cp).

Definition repr_chars (cps : list Z) : list Z :=
  let quote :=
    if (existsb (Z.eqb 39) cps && negb (existsb (Z.eqb 34) cps))%bool then 34 else 39 in
  (quote :: concat (map (repr_char quote) cps) ++ [quote])%list.

Definition repr (s : string) : string := encode (repr_chars (decode s)).

(** *** [int(s)] for a [str] argument, base 10

    CPython first maps every whitespace character outside ASCII to a space
    and every decimal digit outside ASCII to its ASCII digit, then reads the
    result: whitespace, one optional sign, digits in which single
    underscores may separate digits, whitespace.  More than 4300 digits are
    refused (the default of [sys.get_int_max_str_digits]). *)

(** C's [isspace], which the reader uses on the mapped text. *)
Definition is_space (c : Z) : bool := (in_range 9 13 c || (c =? 32))%bool.

Definition digit_val (c : Z) : option Z :=
  if in_range 48 57 c then Some (c - 48) else None.

Definition unicode_decimal (cp : Z) : option Z :=
  (fun z => cp - z) <$> List.find (fun z => in_range z (z + 9) cp) decimal_zeros.

(** [_PyUnicode_TransformDecimalAndSpaceToASCII], one character; what is
    neither becomes a question mark, at which the reader stops. *)
Definition to_ascii (cp : Z) : Z :=
  if cp <? 127 then cp
  else if existsb (Z.eqb cp) unicode_spaces then 32
  else match unicode_decimal cp with
       | Some d => 48 + d
       | None => 63
       end.

Fixpoint lstrip (s : list Z) : list Z :=
  match s with
  | c :: s' => if is_space c then lstrip s' else s
  | [] => []
  end.

Inductive scanned : Type :=
| Malformed
| Digits (value : Z) (count : nat) (rest : list Z).

(** The run of digits and underscores at the front of [s]. *)
Fixpoint digits (s : list Z) (acc : Z) (count : nat) (after_underscore : bool)
  : scanned :=
  match s with
  | [] => if after_underscore then Malformed else Digits acc count []
  | c :: s' =>
      match digit_val c with
      | Some d => digits s' (10 * acc + d) (S count) false
      | None =>
          if c =? 95
          then (if after_underscore then Malformed else digits s' acc count true)
          else (if after_underscore then Malformed else Digits acc count s)
      end
  end.

Definition max_str_digits : nat := 4300.

Inductive parsed : Type :=
| Parsed (n : Z)
| Invalid
| TooLong (count : nat).

Definition read_int (s : list Z) : parsed :=
  let s := lstrip s in
  let '(negative, s) :=
    match s with
    | 45 :: s' => (true, s')
    | 43 :: s' => (false, s')
    | _ => (false, s)
    end in
  match s with
  | 95 :: _ => Invalid
  | _ =>
      match digits s 0 0 false with
      | Malformed => Invalid
      | Digits value count rest =>
          if Nat.ltb max_str_digits count then TooLong count
          else if Nat.eqb count 0 then Invalid
          else match lstrip rest with
               | [] => Parsed (if negative then - value else value)
               | _ :: _ => Invalid
               end
      end
  end.

Definition parse_int (s : string) : parsed := read_int (map to_ascii (decode s)).

(** The text of the [ValueError]: the [repr] of the argument, cut after 200
    characters. *)
Definition invalid_literal (s : string) : string :=
  "invalid literal for int() with base 10: "
  ++ encode (take 200 (repr_chars (decode s))).

Definition too_many_digits (count : nat) : string :=
  "Exceeds the limit (" ++ pretty max_str_digits
  ++ " digits) for integer string conversion: value has " ++ pretty count
  ++ " digits; use sys.set_int_max_str_digits() to increase the limit".

Definition int (s : string) : outcome Z :=
  match parse_int s with
  | Parsed n => Return n
  | Invalid => Raise (Exn ValueError (invalid_literal s))
  | TooLong count => Raise (Exn ValueError (too_many_digits count))
  end.

End Py.

Import Py.


(** ** The state-and-exception monad

    [api.py] has one mutable global, [_runtime].  The remaining fields of
    [State] record what the module does to the outside: how often the
    [T2MRuntime] constructor and [_apply_mmgp] were entered, the calls made to
    [offload.profile], the lines printed, and the scratch directories that
    currently exist. *)

(** Keyword arguments of [T2MRuntime(...)] as passed at lines 74-83. *)
Record CtorArgs : Type := {
  config_path : string;
  ckpt_name : string;
  skip_text : bool;
  device_ids : option (list Z);
  skip_model_loading : bool;
  disable_prompt_engineering : bool;
  prompt_engineering_host : option string;
  prompt_engineering_model_path : option string;
}.

(** A [T2MRuntime] instance: its object identity (the ordinal of the
    constructor call that made it) and what it was built from. *)
Record T2MRuntime : Type := {
  rt_id : nat;
  rt_args : CtorArgs;
}.

(** One call [offload.profile(pipe, profile_no=, verboseLevel=, **kwargs)]. *)
Record OffloadCall : Type := {
  oc_pipe : list string;
  oc_profile_no : Z;
  oc_verboseLevel : Z;
  oc_kwargs : gmap string (gmap string Z);
}.

Record State : Type := {
  _runtime : option T2MRuntime;
  ctor_calls : nat;
  mmgp_calls : nat;
  offload_log : list OffloadCall;
  stdout : list string;
  tmpdirs : list string;
}.

Definition initial_state : State :=
  {| _runtime := None; ctor_calls := 0; mmgp_calls := 0;
     offload_log := []; stdout := []; tmpdirs := [] |}.

Definition py (A : Type) : Type := State -> outcome A * State.

Definition ret {A} (a : A) : py A := fun st => (Return a, st).

Definition raise {A} (e : exn) : py A := fun st => (Raise e, st).

Definition bind {A B} (c : py A) (k : A -> py B) : py B :=
  fun st =>
    match c st with
    | (Return a, st') => k a st'
    | (Raise e, st') => (Raise e, st')
    end.

#[global] Instance py_ret : MRet py := @ret.
#[global] Instance py_bind : MBind py := fun A B k c => bind c k.

(** [try: body / except ...: handler].  [handlers e] is [None] when no
    [except] clause matches [e], which then propagates. *)
Definition try_except {A} (body : py A) (handlers : exn -> option (py A)) : py A :=
  fun st =>
    match body st with
    | (Return a, st') => (Return a, st')
    | (Raise e, st') =>
        match handlers e with
        | Some h => h st'
        | None => (Raise e, st')
        end
    end.

(** Lifting the outcome of a pure or external computation. *)
Definition lift {A} (o : outcome A) : py A := fun st => (o, st).

Definition print (line : string) : py unit :=
  fun st =>
    (Return tt,
     {| _runtime := _runtime st; ctor_calls := ctor_calls st;
        mmgp_calls := mmgp_calls st; offload_log := offload_log st;
        stdout := stdout st ++ [line]; tmpdirs := tmpdirs st |}).

Definition load_runtime : py (option T2MRuntime) :=
  fun st => (Return (_runtime st), st).

Definition store_runtime (v : option T2MRuntime) : py unit :=
  fun st =>
    (Return tt,
     {| _runtime := v; ctor_calls := ctor_calls st;
        mmgp_calls := mmgp_calls st; offload_log := offload_log st;
        stdout := stdout st; tmpdirs := tmpdirs st |}).

#[global] Instance outcome_ret : MRet outcome := @Return.
#[global] Instance outcome_bind : MBind outcome :=
  fun A B k o => match o with Return a => k a | Raise e => Raise e end.
#[global] Instance outcome_fmap : FMap outcome :=
  fun A B f o => match o with Return a => Return (f a) | Raise e => Raise e end.

Definition tick_ctor : py nat :=
  fun st =>
    (Return (ctor_calls st),
     {| _runtime := _runtime st; ctor_calls := S (ctor_calls st);
        mmgp_calls := mmgp_calls st; offload_log := offload_log st;
        stdout := stdout st; tmpdirs := tmpdirs st |}).

Definition tick_mmgp : py unit :=
  fun st =>
    (Return tt,
     {| _runtime := _runtime st; ctor_calls := ctor_calls st;
        mmgp_calls := S (mmgp_calls st); offload_log := offload_log st;
        stdout := stdout st; tmpdirs := tmpdirs st |}).

Definition log_offload (c : OffloadCall) : py unit :=
  fun st =>
    (Return tt,
     {| _runtime := _runtime st; ctor_calls := ctor_calls st;
        mmgp_calls := mmgp_calls st; offload_log := offload_log st ++ [c];
        stdout := stdout st; tmpdirs := tmpdirs st |}).

Definition set_tmpdirs (f : list string -> list string) (st : State) : State :=
  {| _runtime := _runtime st; ctor_calls := ctor_calls st;
     mmgp_calls := mmgp_calls st; offload_log := offload_log st;
     stdout := stdout st; tmpdirs := f (tmpdirs st) |}.

(** ** Tensors and plain Python values *)

(** What [tolist()] produces: a Python float or a list of such values. *)
Inductive plain : Type :=
| PFloat (x : float)
| PList (l : list plain).

(** A dense array in row-major order. *)
Record ndarray : Type := {
  shape : list nat;
  data : list float;
}.

Inductive device : Type :=
| cpu_device
| cuda_device (index : nat).

(** The values [_tensor_to_list] may meet: a [torch.Tensor] on some device, a
    [numpy.ndarray] (or numpy scalar, of shape [()]), or a value that is
    already a plain Python list or float. *)
Inductive pyobj : Type :=
| TorchTensor (dev : device) (a : ndarray)
| NumpyArray (a : ndarray)
| PyPlain (p : plain).

Definition type_name (x : pyobj) : string :=
  match x with
  | TorchTensor _ _ => "Tensor"
  | NumpyArray _ => "numpy.ndarray"
  | PyPlain (PList _) => "list"
  | PyPlain (PFloat _) => "float"
  end.

Definition no_attribute {A} (x : pyobj) (name : string) : outcome A :=
  Raise (Exn AttributeError
           ("'" ++ type_name x ++ "' object has no attribute '" ++ name ++ "'")).

Definition hasattr (x : pyobj) (name : string) : bool :=
  match x with
  | TorchTensor _ _ => existsb (String.eqb name) ["cpu"; "numpy"; "shape"; "tolist"]
  | NumpyArray _ => existsb (String.eqb name) ["shape"; "tolist"]
  | PyPlain _ => false
  end.

(** [x.cpu()] *)
Definition cpu (x : pyobj) : outcome pyobj :=
  match x with
  | TorchTensor _ a => Return (TorchTensor cpu_device a)
  | _ => no_attribute x "cpu"
  end.

(** [x.numpy()]: torch refuses to convert a tensor that is not in host
    memory. *)
Definition numpy (x : pyobj) : outcome pyobj :=
  match x with
  | TorchTensor cpu_device a => Return (NumpyArray a)
  | TorchTensor (cuda_device _) _ =>
      Raise (Exn TypeError "can't convert cuda device type tensor to numpy")
  | _ => no_attribute x "numpy"
  end.

(** [x.shape] *)
Definition get_shape (x : pyobj) : outcome (list nat) :=
  match x with
  | TorchTensor _ a | NumpyArray a => Return (shape a)
  | PyPlain _ => no_attribute x "shape"
  end.

Definition numel (s : list nat) : nat := fold_right Nat.mul 1%nat s.

(** [a[0]] on an array: the first slice along axis 0. *)
Definition ndarray_first (a : ndarray) : outcome ndarray :=
  match shape a with
  | [] => Raise (Exn IndexError "too many indices for array")
  | O :: _ => Raise (Exn IndexError "index 0 is out of bounds for axis 0 with size 0")
  | S _ :: rest => Return {| shape := rest; data := take (numel rest) (data a) |}
  end.

(** [x[0]] *)
Definition getitem0 (x : pyobj) : outcome pyobj :=
  match x with
  | TorchTensor dev a => TorchTensor dev <$> ndarray_first a
  | NumpyArray a => NumpyArray <$> ndarray_first a
  | PyPlain (PList (p :: _)) => Return (PyPlain p)
  | PyPlain (PList []) => Raise (Exn IndexError "list index out of range")
  | PyPlain (PFloat _) => Raise (Exn TypeError "'float' object is not subscriptable")
  end.

Fixpoint tolist_rec (s : list nat) (d : list float) : plain :=
  match s with
  | [] => PFloat (hd 0%float d)
  | n :: rest =>
      PList (map (fun i => tolist_rec rest (take (numel rest) (drop (i * numel rest) d)))
               (seq 0 n))
  end.

Definition ndarray_tolist (a : ndarray) : plain := tolist_rec (shape a) (data a).

(** [x.tolist()] *)
Definition tolist (x : pyobj) : outcome plain :=
  match x with
  | TorchTensor _ a | NumpyArray a => Return (ndarray_tolist a)
  | PyPlain _ => no_attribute x "tolist"
  end.

(** [_tensor_to_list], lines 88-97. *)
Definition _tensor_to_list (x : pyobj) : outcome plain :=
  x ← (if hasattr x "cpu" then cpu x else Return x);
  x ← (if hasattr x "numpy" then numpy x else Return x);
  x ← (if hasattr x "shape"
       then s ← get_shape x;
            if Nat.leb 1 (length s) then getitem0 x else Return x
       else Return x);
  tolist x.

(** ** The outside world *)

(** Arguments of [runtime.generate_motion(...)] as passed at lines 137-145. *)
Record GenArgs : Type := {
  ga_text : string;
  ga_seeds_csv : string;
  ga_duration : float;
  ga_cfg_scale : float;
  ga_output_format : string;
  ga_output_dir : string;
  ga_original_text : string;
}.

(** Everything [api.py] consults but does not define.  A field of type
    [option exn] says whether the call raises; [None] means it returns. *)
Record World : Type := {
  (** [os.environ] at the time of the call *)
  environ : gmap string string;
  (** [os.path.exists] *)
  path_exists : string -> bool;
  (** [T2MRuntime.__init__] *)
  T2MRuntime_init : CtorArgs -> option exn;
  (** [from mmgp import offload] *)
  import_mmgp : option exn;
  (** [runtime.extract_models_for_mmgp()]: the names of the components *)
  extract_models_for_mmgp : T2MRuntime -> outcome (list string);
  (** [offload.profile(...)] *)
  offload_profile : OffloadCall -> option exn;
  (** [runtime.generate_motion(...)], up to the unpacking of its third
      component, the [model_output] dict *)
  runtime_generate_motion : T2MRuntime -> GenArgs -> outcome (gmap string pyobj);
  (** [tempfile.TemporaryDirectory(prefix=...)]: the directory it creates *)
  mkdtemp : string -> outcome string;
}.

(** [os.environ.get(key, default)] *)
Definition environ_get (w : World) (key dflt : string) : string :=
  default dflt (environ w !! key).

(** ** Module initialisation, lines 24-38 *)

(** [os.environ.setdefault(key, value)] *)
Definition setdefault (key value : string) (env : gmap string string)
  : gmap string string :=
  match env !! key with
  | Some _ => env
  | None => <[key := value]> env
  end.

(** The environment after lines 25-28 have run on the process
    environment [env0]. *)
Definition module_environ (env0 : gmap string string) : gmap string string :=
  setdefault "USE_HF_MODELS" "1"
    (setdefault "DISABLE_PROMPT_ENGINEERING" "True"
       (setdefault "QWEN_QUANTIZATION" "int4" env0)).

(** The module constants fixed at import time. *)
Record Globals : Type := {
  MODEL_PATH : string;
  CONFIG_PATH : string;
  CKPT_PATH : string;
}.

Definition module_globals (env : gmap string string) : Globals :=
  let model_path := default "ckpts/tencent/HY-Motion-1.0-Lite" (env !! "MODEL_PATH") in
  {| MODEL_PATH := model_path;
     CONFIG_PATH := Py.path_join model_path "config.yml";
     CKPT_PATH := Py.path_join model_path "latest.ckpt" |}.

Definition MOTION_FPS : Z := 30.

(** ** The offload policy, lines 41-65 *)

(** [kwargs] as built at lines 54-56. *)
Definition mmgp_kwargs (profile : Z) : gmap string (gmap string Z) :=
  if (negb (profile =? 1) && negb (profile =? 3))%bool
  then <["budgets" := {["*" := 4000]}]> ∅
  else ∅.

(** [runtime.extract_models_for_mmgp()] on the value of the global, which
    the type checker takes to be [T2MRuntime | None]. *)
Definition call_extract (w : World) (runtime : option T2MRuntime)
  : outcome (list string) :=
  match runtime with
  | Some rt => extract_models_for_mmgp w rt
  | None =>
      Raise (Exn AttributeError
               "'NoneType' object has no attribute 'extract_models_for_mmgp'")
  end.

Definition raise_if {A} (o : option exn) (a : A) : py A :=
  match o with
  | Some e => raise e
  | None => ret a
  end.

Definition _apply_mmgp (w : World) (runtime : option T2MRuntime) : py unit :=
  tick_mmgp;;
  profile ← lift (Py.int (environ_get w "MMGP_PROFILE" "1"));
  if profile <=? 0 then ret tt
  else
    try_except
      (raise_if (import_mmgp w) tt;;
       pipe ← lift (call_extract w runtime);
       match pipe with
       | [] =>
           print ">>> [WARNING] No models extracted for MMGP offloading. Skipping."
       | _ :: _ =>
           let kwargs := mmgp_kwargs profile in
           verbose ← lift (Py.int (environ_get w "MMGP_VERBOSE" "1"));
           print (">>> Applying MMGP offload profile " ++ pretty profile ++ "...");;
           let call := {| oc_pipe := pipe; oc_profile_no := profile;
                          oc_verboseLevel := verbose; oc_kwargs := kwargs |} in
           log_offload call;;
           raise_if (offload_profile w call) tt;;
           print (">>> MMGP offloading active (profile " ++ pretty profile ++ ").")
       end)
      (fun e =>
         if Py.is_ImportError e
         then Some (print ">>> [INFO] mmgp not installed. Skipping dynamic offloading.")
         else if Py.is_Exception e
         then Some (print (">>> [ERROR] Failed to apply MMGP offloading: " ++ Py.str e))
         else None).

(** ** The singleton manager, lines 68-85 *)

Definition runtime_args (g : Globals) (w : World) (skip_loading : bool) : CtorArgs :=
  {| config_path := CONFIG_PATH g;
     ckpt_name := CKPT_PATH g;
     skip_text := false;
     device_ids := None;
     skip_model_loading := skip_loading;
     disable_prompt_engineering :=
       String.eqb (Py.lower (environ_get w "DISABLE_PROMPT_ENGINEERING" "true")) "true";
     prompt_engineering_host := None;
     prompt_engineering_model_path := None |}.

(** A call of the class [T2MRuntime]: the constructor is entered, and either raises or
    yields a fresh instance. *)
Definition new_T2MRuntime (w : World) (args : CtorArgs) : py T2MRuntime :=
  n ← tick_ctor;
  raise_if (T2MRuntime_init w args) {| rt_id := n; rt_args := args |}.

Definition get_runtime (g : Globals) (w : World) : py (option T2MRuntime) :=
  cur ← load_runtime;
  match cur with
  | None =>
      if negb (path_exists w (CONFIG_PATH g))
      then raise (Exn FileNotFoundError ("Config not found: " ++ CONFIG_PATH g))
      else
        let skip_loading := negb (path_exists w (CKPT_PATH g)) in
        rt ← new_T2MRuntime w (runtime_args g w skip_loading);
        store_runtime (Some rt);;
        cur ← load_runtime;
        _apply_mmgp w cur
  | Some _ => ret tt
  end;;
  load_runtime.

(** The startup hook, lines 100-107, up to its [yield]. *)
Definition lifespan (g : Globals) (w : World) : py unit :=
  try_except
    (get_runtime g w;; ret tt)
    (fun e =>
       if Py.is_Exception e
       then Some (print (">>> [WARNING] Runtime not loaded at startup: " ++ Py.str e))
       else None).

(** ** The request pipeline, lines 114-170 *)

Record MotionRequest : Type := {
  text : string;
  duration : float;
  seed : Z;
  cfg_scale : float;
}.

(** The [Field] constraints of [MotionRequest], which the framework checks
    before the endpoint function is entered.  The bounds on the text count
    characters, not bytes. *)
Definition valid_request (req : MotionRequest) : bool :=
  (Nat.leb 1 (Py.len (text req)) && Nat.leb (Py.len (text req)) 2000
   && PrimFloat.leb 0.5 (duration req) && PrimFloat.leb (duration req) 30
   && (0 <=? seed req)
   && PrimFloat.leb 1 (cfg_scale req) && PrimFloat.leb (cfg_scale req) 20)%bool.

Record Motion : Type := {
  keypoints3d : plain;
  rot6d : plain;
  transl : plain;
  root_rotations_mat : plain;
  num_frames : Z;
  fps : Z;
}.

Record Meta : Type := {
  meta_text : string;
  meta_duration : float;
  meta_seed : Z;
}.

Record Response : Type := {
  motion : Motion;
  meta : Meta;
}.

(** [GET /health] *)
Definition health : gmap string string := {["status" := "ok"]}.

(** [with tempfile.TemporaryDirectory(prefix=...) as tmpdir: body]: the
    directory exists while the body runs and is removed on every exit.
    Removal itself is taken to succeed. *)
Definition with_TemporaryDirectory {A} (w : World) (prefix : string)
    (body : string -> py A) : py A :=
  bind (lift (mkdtemp w prefix)) (fun tmpdir st =>
    let '(o, st') := body tmpdir (set_tmpdirs (cons tmpdir) st) in
    (o, set_tmpdirs (filter (fun d => d ≠ tmpdir)) st')).

(** [runtime.generate_motion(...)] on the value [get_runtime] returned. *)
Definition call_generate (w : World) (runtime : option T2MRuntime) (a : GenArgs)
  : outcome (gmap string pyobj) :=
  match runtime with
  | Some rt => runtime_generate_motion w rt a
  | None =>
      Raise (Exn AttributeError "'NoneType' object has no attribute 'generate_motion'")
  end.

(** [d[key]] on a dict *)
Definition dict_getitem (d : gmap string pyobj) (key : string) : outcome pyobj :=
  match d !! key with
  | Some v => Return v
  | None => Raise (Exn KeyError ("'" ++ key ++ "'"))
  end.

(** [x.shape[i]] *)
Definition shape_at (x : pyobj) (i : nat) : outcome nat :=
  s ← get_shape x;
  match s !! i with
  | Some n => Return n
  | None => Raise (Exn IndexError "tuple index out of range")
  end.

Definition generate_motion (g : Globals) (w : World) (req : MotionRequest)
  : py Response :=
  runtime ←
    try_except (get_runtime g w)
      (fun e =>
         if Py.is_FileNotFoundError e
         then Some (raise (HTTPException 503 ("Model not available: " ++ Py.str e)))
         else if Py.is_Exception e
         then Some (raise (HTTPException 503 ("Service unavailable: " ++ Py.str e)))
         else None);
  model_output ←
    with_TemporaryDirectory w "hymotion_" (fun tmpdir =>
      try_except
        (lift (call_generate w runtime
                 {| ga_text := text req;
                    ga_seeds_csv := pretty (seed req);
                    ga_duration := duration req;
                    ga_cfg_scale := cfg_scale req;
                    ga_output_format := "dict";
                    ga_output_dir := tmpdir;
                    ga_original_text := text req |}))
        (fun e =>
           if Py.is_Exception e
           then Some (raise (HTTPException 503 ("Generation failed: " ++ Py.str e)))
           else None));
  lift (
    kp ← dict_getitem model_output "keypoints3d";
    r6 ← dict_getitem model_output "rot6d";
    tr ← dict_getitem model_output "transl";
    rm ← dict_getitem model_output "root_rotations_mat";
    n ← shape_at kp 1;
    kp_list ← _tensor_to_list kp;
    r6_list ← _tensor_to_list r6;
    tr_list ← _tensor_to_list tr;
    rm_list ← _tensor_to_list rm;
    Return
      {| motion :=
           {| keypoints3d := kp_list; rot6d := r6_list; transl := tr_list;
              root_rotations_mat := rm_list;
              num_frames := Z.of_nat n; fps := MOTION_FPS |};
         meta :=
           {| meta_text := text req; meta_duration := duration req;
              meta_seed := seed req |} |}).

(** Consecutive calls, each running to completion before the next starts,
    each in the world it finds. *)
Fixpoint run_calls {A B} (f : A -> py B) (xs : list A) (st : State)
  : list (outcome B) * State :=
  match xs with
  | [] => ([], st)
  | x :: xs' =>
      let '(o, st') := f x st in
      let '(os, st'') := run_calls f xs' st' in
      (o :: os, st'')
  end.

(** ** Overlapping calls of [get_runtime]

    The endpoint is a plain [def], so the framework runs requests on worker
    threads, and [get_runtime] takes no lock.  A call is cut at the points
    where it reads or writes the global [_runtime]; between two such points
    another thread may run.  [_apply_mmgp] is kept as a single step. *)

Module Threads.

Inductive pc : Type :=
| AtCheck                       (* line 70: [if _runtime is None] *)
| AtConfig                      (* lines 71-72 *)
| AtConstruct                   (* lines 73-83, the call [T2MRuntime(...)] *)
| AtStore (rt : T2MRuntime)     (* line 74, the assignment to [_runtime] *)
| AtApply                       (* line 84 *)
| AtReturn                      (* line 85 *)
| Finished (o : outcome (option T2MRuntime)).

Definition thread_step (g : Globals) (w : World) (p : pc) (st : State)
  : pc * State :=
  match p with
  | AtCheck =>
      match _runtime st with
      | None => (AtConfig, st)
      | Some _ => (AtReturn, st)
      end
  | AtConfig =>
      if negb (path_exists w (CONFIG_PATH g))
      then (Finished
              (Raise (Exn FileNotFoundError ("Config not found: " ++ CONFIG_PATH g))),
            st)
      else (AtConstruct, st)
  | AtConstruct =>
      let skip_loading := negb (path_exists w (CKPT_PATH g)) in
      match new_T2MRuntime w (runtime_args g w skip_loading) st with
      | (Return rt, st') => (AtStore rt, st')
      | (Raise e, st') => (Finished (Raise e), st')
      end
  | AtStore rt => (AtApply, snd (store_runtime (Some rt) st))
  | AtApply =>
      match _apply_mmgp w (_runtime st) st with
      | (Return _, st') => (AtReturn, st')
      | (Raise e, st') => (Finished (Raise e), st')
      end
  | AtReturn => (Finished (Return (_runtime st)), st)
  | Finished o => (Finished o, st)
  end.

Definition is_finished (p : pc) : bool :=
  match p with
  | Finished _ => true
  | _ => false
  end.

(** The threads and the state they share. *)
Definition system : Type := list pc * State.

(** Thread [i] takes one step. *)
Definition system_step (g : Globals) (w : World) (s : system) (i : nat) : system :=
  match s.1 !! i with
  | Some p =>
      let '(p', st') := thread_step g w p s.2 in
      (<[i := p']> s.1, st')
  | None => s
  end.

(** A schedule names the thread that moves at each instant. *)
Definition run (g : Globals) (w : World) (sched : list nat) (s : system) : system :=
  fold_left (system_step g w) sched s.

(** [n] threads enter [get_runtime] in a fresh process. *)
Definition first_use (n : nat) : system := (replicate n AtCheck, initial_state).

(** One thread running on its own until it is done. *)
Definition run_alone (g : Globals) (w : World) (st : State) : pc * State :=
  Nat.iter 6 (fun s => thread_step g w s.1 s.2) (AtCheck, st).

(** Where a caller can be once the slot holds [rt]: about to test it, about
    to return it, or done with it in hand. *)
Definition settled (rt : T2MRuntime) (p : pc) : Prop :=
  p = AtCheck ∨ p = AtReturn ∨ p = Finished (Return (Some rt)).

(** What the specification asks of concurrent first use: whatever the
    schedule, once all callers are done exactly one construction and one
    offload application took place and all callers hold the same
    instance. *)
Definition single_construction (g : Globals) (w : World) (n : nat) : Prop :=
  ∀ sched ts st,
    run g w sched (first_use n) = (ts, st) →
    forallb is_finished ts = true →
    ctor_calls st = 1%nat ∧ mmgp_calls st = 1%nat ∧
    ∃ rt, Forall (fun p => p = Finished (Return (Some rt))) ts.

End Threads.

(** ** Concrete worlds *)

Module Demo.

Definition globals : Globals := module_globals ∅.

Definition frames (s : list nat) (d : list float) : pyobj :=
  TorchTensor (cuda_device 0) {| shape := s; data := d |}.

Definition model_output : gmap string pyobj :=
  <["keypoints3d" := frames [1; 2; 3]%nat [0.5; 1; 1.5; 2; 2.5; 3]%float]>
    (<["rot6d" := frames [1; 2; 2]%nat [1; 0; 0; 1]%float]>
       (<["transl" := frames [1; 2; 1]%nat [0; 0.25]%float]>
          (<["root_rotations_mat" := frames [1; 2; 1]%nat [1; 1]%float]> ∅))).

(** The model directory holds [config.yml] but no checkpoint; [mmgp] is
    installed and the runtime exposes two components. *)
Definition world : World :=
  {| environ := module_environ ∅;
     path_exists := fun p => String.eqb p (CONFIG_PATH globals);
     T2MRuntime_init := fun _ => None;
     import_mmgp := None;
     extract_models_for_mmgp := fun _ => Return ["transformer"; "text_encoder"];
     offload_profile := fun _ => None;
     runtime_generate_motion := fun _ _ => Return model_output;
     mkdtemp := fun prefix => Return ("/tmp/" ++ prefix ++ "k3x9") |}.

Definition with_environ (env : gmap string string) (w : World) : World :=
  {| environ := env;
     path_exists := path_exists w;
     T2MRuntime_init := T2MRuntime_init w;
     import_mmgp := import_mmgp w;
     extract_models_for_mmgp := extract_models_for_mmgp w;
     offload_profile := offload_profile w;
     runtime_generate_motion := runtime_generate_motion w;
     mkdtemp := mkdtemp w |}.

Definition with_path_exists (f : string -> bool) (w : World) : World :=
  {| environ := environ w;
     path_exists := f;
     T2MRuntime_init := T2MRuntime_init w;
     import_mmgp := import_mmgp w;
     extract_models_for_mmgp := extract_models_for_mmgp w;
     offload_profile := offload_profile w;
     runtime_generate_motion := runtime_generate_motion w;
     mkdtemp := mkdtemp w |}.

(** The same with an empty model directory. *)
Definition unconfigured : World := with_path_exists (fun _ => false) world.

(** The same with [MMGP_PROFILE=balanced], the word the module docstring
    uses for profile 3. *)
Definition misconfigured : World :=
  with_environ (<["MMGP_PROFILE" := "balanced"]> (module_environ ∅)) world.

Definition with_profile (p : string) : World :=
  with_environ (<["MMGP_PROFILE" := p]> (module_environ ∅)) world.

Definition request : MotionRequest :=
  {| text := "a person waves"; duration := 3; seed := 42; cfg_scale := 5 |}.

(** What the endpoint answers to [request] in [world]. *)
Definition response : Response :=
  {| motion :=
       {| keypoints3d := PList [PList [PFloat 0.5; PFloat 1; PFloat 1.5];
                                PList [PFloat 2; PFloat 2.5; PFloat 3]];
          rot6d := PList [PList [PFloat 1; PFloat 0]; PList [PFloat 0; PFloat 1]];
          transl := PList [PList [PFloat 0]; PList [PFloat 0.25]];
          root_rotations_mat := PList [PList [PFloat 1]; PList [PFloat 1]];
          num_frames := 2; fps := 30 |};
     meta := {| meta_text := "a person waves"; meta_duration := 3; meta_seed := 42 |} |}.

(** Two callers: both test the global before either has assigned it, then
    each runs to its end. *)
Definition racy_schedule : list nat :=
  [0; 1; 0; 0; 0; 0; 0; 1; 1; 1; 1; 1]%nat.

End Demo.

(** ** Worlds in which a collaborator fails *)

Module Scenario.

Definition with_ctor (f : CtorArgs -> option exn) (w : World) : World :=
  {| environ := environ w;
     path_exists := path_exists w;
     T2MRuntime_init := f;
     import_mmgp := import_mmgp w;
     extract_models_for_mmgp := extract_models_for_mmgp w;
     offload_profile := offload_profile w;
     runtime_generate_motion := runtime_generate_motion w;
     mkdtemp := mkdtemp w |}.

Definition with_import (o : option exn) (w : World) : World :=
  {| environ := environ w;
     path_exists := path_exists w;
     T2MRuntime_init := T2MRuntime_init w;
     import_mmgp := o;
     extract_models_for_mmgp := extract_models_for_mmgp w;
     offload_profile := offload_profile w;
     runtime_generate_motion := runtime_generate_motion w;
     mkdtemp := mkdtemp w |}.

Definition with_extract (f : T2MRuntime -> outcome (list string)) (w : World) : World :=
  {| environ := environ w;
     path_exists := path_exists w;
     T2MRuntime_init := T2MRuntime_init w;
     import_mmgp := import_mmgp w;
     extract_models_for_mmgp := f;
     offload_profile := offload_profile w;
     runtime_generate_motion := runtime_generate_motion w;
     mkdtemp := mkdtemp w |}.

Definition with_offload (f : OffloadCall -> option exn) (w : World) : World :=
  {| environ := environ w;
     path_exists := path_exists w;
     T2MRuntime_init := T2MRuntime_init w;
     import_mmgp := import_mmgp w;
     extract_models_for_mmgp := extract_models_for_mmgp w;
     offload_profile := f;
     runtime_generate_motion := runtime_generate_motion w;
     mkdtemp := mkdtemp w |}.

Definition with_generate
    (f : T2MRuntime -> GenArgs -> outcome (gmap string pyobj)) (w : World) : World :=
  {| environ := environ w;
     path_exists := path_exists w;
     T2MRuntime_init := T2MRuntime_init w;
     import_mmgp := import_mmgp w;
     extract_models_for_mmgp := extract_models_for_mmgp w;
     offload_profile := offload_profile w;
     runtime_generate_motion := f;
     mkdtemp := mkdtemp w |}.

(** [mmgp] is not installed. *)
Definition no_mmgp : World :=
  with_import (Some (Exn ModuleNotFoundError "No module named 'mmgp'")) Demo.world.

(** The runtime has nothing to offload. *)
Definition no_components : World := with_extract (fun _ => Return []) Demo.world.

(** The tuning pass itself fails. *)
Definition offload_fails : World :=
  with_offload (fun _ => Some (Exn RuntimeError "CUDA error: out of memory")) Demo.world.

(** [MMGP_VERBOSE=debug] *)
Definition unreadable_verbosity : World :=
  Demo.with_environ (<["MMGP_VERBOSE" := "debug"]> (module_environ ∅)) Demo.world.

(** The checkpoint cannot be loaded. *)
Definition ctor_fails : World :=
  with_ctor (fun _ => Some (Exn RuntimeError "checkpoint is corrupt")) Demo.world.

(** The model raises while sampling. *)
Definition generation_fails : World :=
  with_generate (fun _ _ => Raise (Exn RuntimeError "CUDA error: out of memory")) Demo.world.



(** The state of a process whose first request in [Demo.world] has been
    served. *)
Definition warm_state : State := (get_runtime Demo.globals Demo.world initial_state).2.

Definition warm_runtime : T2MRuntime :=
  {| rt_id := 0; rt_args := runtime_args Demo.globals Demo.world true |}.

End Scenario.


(** What lines 25-28 write for a variable the process did not set. *)
Definition import_default (key : string) : option string :=
  if decide (key = "QWEN_QUANTIZATION") then Some "int4"
  else if decide (key = "DISABLE_PROMPT_ENGINEERING") then Some "True"
  else if decide (key = "USE_HF_MODELS") then Some "1"
  else None.

(** What holds of the slot and the counters between calls: an empty slot
    means the offload policy was never entered; a filled one means it was
    entered once, for an instance that a counted constructor call made. *)
Definition lifecycle_invariant (st : State) : Prop :=
  match _runtime st with
  | None => mmgp_calls st = 0%nat
  | Some rt => mmgp_calls st = 1%nat ∧ (rt_id rt < ctor_calls st)%nat
  end.

(** The state once the scratch directory [d] has been removed. *)
Definition scratch_removed (d : string) (st : State) : State :=
  set_tmpdirs (filter (fun x => x ≠ d)) st.

(** The line the startup hook prints when preloading fails. *)
Definition startup_warning (e : exn) : string :=
  ">>> [WARNING] Runtime not loaded at startup: " ++ Py.str e.

(** The endpoint in its parts: the arguments of lines 137-145, the
    mapping of lines 130-133, the assembly of lines 150-170. *)
Definition request_args (req : MotionRequest) (tmpdir : string) : GenArgs :=
  {| ga_text := text req;
     ga_seeds_csv := pretty (seed req);
     ga_duration := duration req;
     ga_cfg_scale := cfg_scale req;
     ga_output_format := "dict";
     ga_output_dir := tmpdir;
     ga_original_text := text req |}.

Definition unavailable (e : exn) : exn :=
  if Py.is_FileNotFoundError e
  then HTTPException 503 ("Model not available: " ++ Py.str e)
  else if Py.is_Exception e
  then HTTPException 503 ("Service unavailable: " ++ Py.str e)
  else e.

Definition generation_failed (e : exn) : exn :=
  if Py.is_Exception e
  then HTTPException 503 ("Generation failed: " ++ Py.str e)
  else e.

Definition assemble (req : MotionRequest) (model_output : gmap string pyobj)
  : outcome Response :=
  kp ← dict_getitem model_output "keypoints3d";
  r6 ← dict_getitem model_output "rot6d";
  tr ← dict_getitem model_output "transl";
  rm ← dict_getitem model_output "root_rotations_mat";
  n ← shape_at kp 1;
  kp_list ← _tensor_to_list kp;
  r6_list ← _tensor_to_list r6;
  tr_list ← _tensor_to_list tr;
  rm_list ← _tensor_to_list rm;
  Return
    {| motion :=
         {| keypoints3d := kp_list; rot6d := r6_list; transl := tr_list;
            root_rotations_mat := rm_list;
            num_frames := Z.of_nat n; fps := MOTION_FPS |};
       meta :=
         {| meta_text := text req; meta_duration := duration req;
            meta_seed := seed req |} |}.

Definition serve (w : World) (runtime : option T2MRuntime) (req : MotionRequest)
    (tmpdir : string) : outcome Response :=
  match call_generate w runtime (request_args req tmpdir) with
  | Return out => assemble req out
  | Raise e => Raise (generation_failed e)
  end.

(** Two weights on the position of a caller: whether it may still enter
    the constructor, and whether it has constructed but not yet entered
    [_apply_mmgp]. *)
Definition may_construct (p : Threads.pc) : nat :=
  match p with
  | Threads.AtCheck | Threads.AtConfig | Threads.AtConstruct => 1
  | _ => 0
  end.

Definition owes_apply (p : Threads.pc) : nat :=
  match p with
  | Threads.AtStore _ | Threads.AtApply => 1
  | _ => 0
  end.

(** The lines [_apply_mmgp] prints. *)
Definition mmgp_info : string :=
  ">>> [INFO] mmgp not installed. Skipping dynamic offloading.".
Definition mmgp_warning : string :=
  ">>> [WARNING] No models extracted for MMGP offloading. Skipping.".
Definition mmgp_applying (profile : Z) : string :=
  ">>> Applying MMGP offload profile " ++ pretty profile ++ "...".
Definition mmgp_active (profile : Z) : string :=
  ">>> MMGP offloading active (profile " ++ pretty profile ++ ").".
Definition mmgp_error (e : exn) : string :=
  ">>> [ERROR] Failed to apply MMGP offloading: " ++ Py.str e.

(** The state after [_apply_mmgp] was entered and printed [lines]; [calls]
    are the calls it made to [offload.profile]. *)
Definition after_mmgp (st : State) (calls : list OffloadCall) (lines : list string)
  : State :=
  {| _runtime := _runtime st; ctor_calls := ctor_calls st;
     mmgp_calls := S (mmgp_calls st);
     offload_log := offload_log st ++ calls;
     stdout := stdout st ++ lines; tmpdirs := tmpdirs st |}.

(** Equality with ["true"] regardless of case, said without [lower]: four
    letters, each in either case. *)
Definition either_case (small capital c : ascii) : bool :=
  (Ascii.eqb c small || Ascii.eqb c capital)%bool.

Definition spells_true (v : string) : bool :=
  match v with
  | String a (String b (String c (String d EmptyString))) =>
      (either_case "t" "T" a && either_case "r" "R" b
       && either_case "u" "U" c && either_case "e" "E" d)%bool
  | _ => false
  end.

(** The state right after line 74 has assigned a new instance to the
    global: one more constructor call, the slot filled. *)
Definition after_construction (st : State) (rt : T2MRuntime) : State :=
  {| _runtime := Some rt; ctor_calls := S (ctor_calls st);
     mmgp_calls := mmgp_calls st; offload_log := offload_log st;
     stdout := stdout st; tmpdirs := tmpdirs st |}.

(** The instance a constructor call made in state [st] yields. *)
Definition fresh_runtime (g : Globals) (w : World) (st : State) : T2MRuntime :=
  {| rt_id := ctor_calls st;
     rt_args := runtime_args g w (negb (path_exists w (CKPT_PATH g))) |}.

(** The budget dictionary of line 56. *)
Definition budget_kwargs : gmap string (gmap string Z) :=
  <["budgets" := {["*" := 4000]}]> ∅.

(** ** The monad, unfolded *)

Ltac py_unfold :=
  unfold raise_if, lift, try_except, print, tick_mmgp, tick_ctor,
    log_offload, load_runtime, store_runtime, mbind, mret, fmap, py_bind,
    py_ret, outcome_bind, outcome_ret, outcome_fmap, bind, ret, raise in *.

Ltac py_cases := repeat (case_match; simplify_eq/=); try done.

(** * Properties *)

(** ** Built-ins on concrete inputs *)

Example int_3 : Py.int "3" = Return 3.
Proof. reflexivity. Qed.

Example int_padded : Py.int " -1_0 " = Return (-10).
Proof. reflexivity. Qed.

Example int_empty : Py.parse_int "" = Py.Invalid.
Proof. reflexivity. Qed.

Example int_word : Py.parse_int "balanced" = Py.Invalid.
Proof. reflexivity. Qed.

Example int_trailing_underscore : Py.parse_int "1_" = Py.Invalid.
Proof. reflexivity. Qed.

Example int_control_character :
  Py.int (String (ascii_of_nat 28) "3")
  = Raise (Exn ValueError "invalid literal for int() with base 10: '\x1c3'").
Proof. reflexivity. Qed.

Example int_fullwidth_digits :
  Py.int (Py.encode [160; 65297; 65298; 8195]) = Return 12.
Proof. reflexivity. Qed.

Example int_message_uses_repr :
  Py.int "it's"
  = Raise (Exn ValueError
             ("invalid literal for int() with base 10: "
              ++ String (ascii_of_nat 34) ("it's" ++ String (ascii_of_nat 34) ""))).
Proof. reflexivity. Qed.

Example int_digit_limit :
  Py.read_int (repeat 49 4301) = Py.TooLong 4301
  ∧ Py.read_int (repeat 49 4301 ++ [120]) = Py.TooLong 4301
  ∧ Py.read_int (repeat 49 4301 ++ [95]) = Py.Invalid.
Proof. vm_compute. repeat split. Qed.

Example len_counts_characters :
  Py.len (Py.encode [233; 8364; 128512]) = 3%nat
  ∧ String.length (Py.encode [233; 8364; 128512]) = 9%nat.
Proof. vm_compute. repeat split. Qed.

Example lower_True : Py.lower "True" = "true".
Proof. reflexivity. Qed.

Example join_default :
  Py.path_join "ckpts/tencent/HY-Motion-1.0-Lite" "config.yml"
  = "ckpts/tencent/HY-Motion-1.0-Lite/config.yml".
Proof. reflexivity. Qed.

Example valid_boundaries :
  valid_request {| text := ""; duration := 3; seed := 42; cfg_scale := 5 |} = false
  ∧ valid_request {| text := "a"; duration := 0x1.999999999999ap-2; seed := 42; cfg_scale := 5 |} = false
  ∧ valid_request {| text := "a"; duration := 30; seed := 42; cfg_scale := 20 |} = true
  ∧ valid_request {| text := "a"; duration := 3; seed := -1; cfg_scale := 5 |} = false.
Proof. repeat split; reflexivity. Qed.

(** ** The offload policy *)

(** [_apply_mmgp] never touches the singleton, the constructor count or the
    scratch directories, and counts itself once. *)
Lemma apply_mmgp_frame w r st :
  _runtime (_apply_mmgp w r st).2 = _runtime st
  ∧ ctor_calls (_apply_mmgp w r st).2 = ctor_calls st
  ∧ mmgp_calls (_apply_mmgp w r st).2 = S (mmgp_calls st)
  ∧ tmpdirs (_apply_mmgp w r st).2 = tmpdirs st.
Proof.
  unfold _apply_mmgp. py_unfold. simpl.
  py_cases.
Qed.

(** Once [MMGP_PROFILE] has been read as an integer, only an exception that
    is not an [Exception] (an interrupt, an exit) can leave [_apply_mmgp]. *)
Lemma apply_mmgp_swallows w r st p :
  Py.int (environ_get w "MMGP_PROFILE" "1") = Return p →
  (_apply_mmgp w r st).1 = Return tt
  ∨ ∃ e, (_apply_mmgp w r st).1 = Raise e ∧ Py.is_Exception e = false.
Proof.
  intros Hp. unfold _apply_mmgp. py_unfold. simpl. rewrite Hp.
  py_cases; try (by left); try (right; eexists; split; [done|]);
    repeat match goal with
      | H : Py.is_Exception ?e = _ |- _ => try exact H; clear H
      | u : unit |- _ => destruct u
      end; try (by left).
Qed.

(** With a positive profile, the library importable, a non-empty component
    set and a readable verbosity, [offload.profile] is called exactly once,
    with the keyword arguments of lines 54-56. *)
Lemma apply_mmgp_positive w r st p pipe v :
  Py.int (environ_get w "MMGP_PROFILE" "1") = Return p →
  0 < p →
  import_mmgp w = None →
  call_extract w r = Return pipe →
  pipe ≠ [] →
  Py.int (environ_get w "MMGP_VERBOSE" "1") = Return v →
  offload_log (_apply_mmgp w r st).2 =
    (offload_log st ++
      [{| oc_pipe := pipe; oc_profile_no := p; oc_verboseLevel := v;
          oc_kwargs := mmgp_kwargs p |}])%list.
Proof.
  intros Hp Hpos Himp Hext Hne Hv.
  unfold _apply_mmgp. py_unfold. simpl.
  rewrite Hp. assert ((p <=? 0) = false) as -> by lia.
  rewrite Himp, Hext.
  destruct pipe as [|c pipe]; [done|].
  rewrite Hv. simpl.
  py_cases.
Qed.

(** C4. The offload policy dispatches on the integer read from
    [MMGP_PROFILE]: a profile of zero or less does nothing (the call is
    counted and returns, no library call, no output); profile 1 or 3 calls
    [offload.profile] with no extra keyword argument; any other positive
    profile calls it with [budgets = {"*": 4000}].  The call is made when
    [mmgp] can be imported, the runtime yields a non-empty component set and
    [MMGP_VERBOSE] reads as an integer. *)
Theorem apply_mmgp_dispatch w r st p :
  Py.int (environ_get w "MMGP_PROFILE" "1") = Return p →
  (p ≤ 0 → _apply_mmgp w r st = tick_mmgp st)
  ∧ (0 < p → ∀ pipe v,
       import_mmgp w = None →
       call_extract w r = Return pipe →
       pipe ≠ [] →
       Py.int (environ_get w "MMGP_VERBOSE" "1") = Return v →
       offload_log (_apply_mmgp w r st).2 =
         (offload_log st ++
           [{| oc_pipe := pipe; oc_profile_no := p; oc_verboseLevel := v;
               oc_kwargs := if ((p =? 1) || (p =? 3))%bool then ∅
                            else budget_kwargs |}])%list).
Proof.
  intros Hp. split.
  - intros Hle. unfold _apply_mmgp. py_unfold. simpl. rewrite Hp.
    by assert ((p <=? 0) = true) as -> by lia.
  - intros Hpos pipe v Himp Hext Hne Hv.
    rewrite (apply_mmgp_positive w r st p pipe v) by done.
    unfold mmgp_kwargs, budget_kwargs.
    by destruct (p =? 1), (p =? 3).
Qed.

Lemma apply_mmgp_dispatch_witness :
  _apply_mmgp (Demo.with_profile "0") None initial_state = tick_mmgp initial_state
  ∧ offload_log
      (_apply_mmgp (Demo.with_profile "3") (Some (fresh_runtime Demo.globals Demo.world initial_state))
         initial_state).2
    = [{| oc_pipe := ["transformer"; "text_encoder"]; oc_profile_no := 3;
          oc_verboseLevel := 1; oc_kwargs := ∅ |}]
  ∧ offload_log
      (_apply_mmgp (Demo.with_profile "2") (Some (fresh_runtime Demo.globals Demo.world initial_state))
         initial_state).2
    = [{| oc_pipe := ["transformer"; "text_encoder"]; oc_profile_no := 2;
          oc_verboseLevel := 1; oc_kwargs := budget_kwargs |}].
Proof.
  split; [|split].
  - apply (apply_mmgp_dispatch (Demo.with_profile "0") None initial_state 0);
      [reflexivity | lia].
  - apply (proj2 (apply_mmgp_dispatch (Demo.with_profile "3") _ initial_state 3 eq_refl));
      [lia | reflexivity | reflexivity | discriminate | reflexivity].
  - apply (proj2 (apply_mmgp_dispatch (Demo.with_profile "2") _ initial_state 2 eq_refl));
      [lia | reflexivity | reflexivity | discriminate | reflexivity].
Defined.

(** C5. With [MMGP_PROFILE] absent from the environment the policy
    dispatches on profile 1 (the ["1"] of line 43), not on the profile 3
    that the module docstring announces as the default: the call it makes to
    [offload.profile] carries [profile_no = 1]. *)
Theorem apply_mmgp_default_profile w r st pipe v :
  environ w !! "MMGP_PROFILE" = None →
  import_mmgp w = None →
  call_extract w r = Return pipe →
  pipe ≠ [] →
  Py.int (environ_get w "MMGP_VERBOSE" "1") = Return v →
  Py.int (environ_get w "MMGP_PROFILE" "1") = Return 1
  ∧ offload_log (_apply_mmgp w r st).2 =
      (offload_log st ++
        [{| oc_pipe := pipe; oc_profile_no := 1; oc_verboseLevel := v;
            oc_kwargs := ∅ |}])%list.
Proof.
  intros Habs Himp Hext Hne Hv.
  assert (Py.int (environ_get w "MMGP_PROFILE" "1") = Return 1) as Hp.
  { unfold environ_get. by rewrite Habs. }
  split; [done|].
  by rewrite (apply_mmgp_positive w r st 1 pipe v).
Qed.

Lemma apply_mmgp_default_profile_witness :
  Py.int (environ_get Demo.world "MMGP_PROFILE" "1") = Return 1
  ∧ offload_log
      (_apply_mmgp Demo.world (Some (fresh_runtime Demo.globals Demo.world initial_state))
         initial_state).2
    = [{| oc_pipe := ["transformer"; "text_encoder"]; oc_profile_no := 1;
          oc_verboseLevel := 1; oc_kwargs := ∅ |}].
Proof.
  apply (apply_mmgp_default_profile Demo.world _ initial_state
           ["transformer"; "text_encoder"] 1);
    [reflexivity | reflexivity | reflexivity | discriminate | reflexivity].
Defined.

(** C6. [_apply_mmgp] does raise past its boundary: line 43 converts
    [MMGP_PROFILE] with [int] before the [try] of line 46 is entered, so with
    [MMGP_PROFILE=balanced] the [ValueError] reaches the caller, for every
    handle and in every state. *)
Theorem apply_mmgp_raises_on_unreadable_profile r st :
  (_apply_mmgp Demo.misconfigured r st).1
  = Raise (Exn ValueError "invalid literal for int() with base 10: 'balanced'").
Proof. reflexivity. Qed.

(** ** The singleton manager *)

(** The fast path: an existing instance is returned and nothing changes. *)
Lemma get_runtime_cached g w st rt :
  _runtime st = Some rt →
  get_runtime g w st = (Return (Some rt), st).
Proof.
  intros Hrt. unfold get_runtime. py_unfold. simpl. rewrite Hrt. simpl. by rewrite Hrt.
Qed.

(** No config file: [FileNotFoundError], and the state is what it was. *)
Lemma get_runtime_config_absent g w st :
  _runtime st = None →
  path_exists w (CONFIG_PATH g) = false →
  get_runtime g w st
  = (Raise (Exn FileNotFoundError ("Config not found: " ++ CONFIG_PATH g)), st).
Proof.
  intros Hrt Hcfg. unfold get_runtime. py_unfold. simpl. rewrite Hrt, Hcfg. reflexivity.
Qed.

(** The constructor raises: the exception propagates from line 74 before the
    assignment, so the slot stays empty. *)
Lemma get_runtime_ctor_raises g w st e :
  _runtime st = None →
  path_exists w (CONFIG_PATH g) = true →
  T2MRuntime_init w (runtime_args g w (negb (path_exists w (CKPT_PATH g)))) = Some e →
  get_runtime g w st = (Raise e, (tick_ctor st).2).
Proof.
  intros Hrt Hcfg Hinit. unfold get_runtime, new_T2MRuntime. py_unfold. simpl.
  rewrite Hrt, Hcfg. simpl. rewrite Hinit. by rewrite Hrt.
Qed.

(** The constructor returns: the new instance is stored, then handed to
    [_apply_mmgp], whose outcome decides that of the call. *)
Lemma get_runtime_constructs g w st :
  _runtime st = None →
  path_exists w (CONFIG_PATH g) = true →
  T2MRuntime_init w (runtime_args g w (negb (path_exists w (CKPT_PATH g)))) = None →
  let rt := fresh_runtime g w st in
  let applied := _apply_mmgp w (Some rt) (after_construction st rt) in
  get_runtime g w st
  = (match applied.1 with
     | Return _ => Return (Some rt)
     | Raise e => Raise e
     end, applied.2).
Proof.
  intros Hrt Hcfg Hinit rt applied.
  pose proof (apply_mmgp_frame w (Some rt) (after_construction st rt)) as (Hslot & _).
  unfold get_runtime, new_T2MRuntime. py_unfold. simpl.
  rewrite Hrt, Hcfg. simpl. rewrite Hinit. simpl.
  subst applied rt. unfold after_construction, fresh_runtime in *.
  destruct (_apply_mmgp _ _ _) as [[[]|e] st']; simpl in *; [|done].
  by rewrite Hslot.
Qed.

(** Whatever [get_runtime] returns is the content of the slot, and the slot
    is then filled. *)
Lemma get_runtime_returns g w st r st' :
  get_runtime g w st = (Return r, st') →
  ∃ rt, r = Some rt ∧ _runtime st' = Some rt.
Proof.
  intros Hget.
  destruct (_runtime st) as [rt|] eqn:Hrt.
  - rewrite (get_runtime_cached g w st rt Hrt) in Hget. simplify_eq. eauto.
  - destruct (path_exists w (CONFIG_PATH g)) eqn:Hcfg.
    + destruct (T2MRuntime_init w (runtime_args g w (negb (path_exists w (CKPT_PATH g)))))
        as [e|] eqn:Hinit.
      * rewrite (get_runtime_ctor_raises g w st e Hrt Hcfg Hinit) in Hget. done.
      * rewrite (get_runtime_constructs g w st Hrt Hcfg Hinit) in Hget.
        pose proof (apply_mmgp_frame w (Some (fresh_runtime g w st))
                      (after_construction st (fresh_runtime g w st))) as (Hslot & _).
        case_match; simplify_eq. eauto.
    + rewrite (get_runtime_config_absent g w st Hrt Hcfg) in Hget. done.
Qed.

(** A slot that was empty and is filled afterwards holds the instance this
    very call constructed. *)
Lemma get_runtime_fills_slot g w st rt :
  _runtime st = None →
  _runtime (get_runtime g w st).2 = Some rt →
  rt = fresh_runtime g w st
  ∧ ctor_calls (get_runtime g w st).2 = S (ctor_calls st)
  ∧ mmgp_calls (get_runtime g w st).2 = S (mmgp_calls st).
Proof.
  intros Hrt Hslot.
  destruct (path_exists w (CONFIG_PATH g)) eqn:Hcfg.
  - destruct (T2MRuntime_init w (runtime_args g w (negb (path_exists w (CKPT_PATH g)))))
      as [e|] eqn:Hinit.
    + rewrite (get_runtime_ctor_raises g w st e Hrt Hcfg Hinit) in Hslot.
      simpl in Hslot. congruence.
    + rewrite (get_runtime_constructs g w st Hrt Hcfg Hinit) in *. simpl in *.
      pose proof (apply_mmgp_frame w (Some (fresh_runtime g w st))
                    (after_construction st (fresh_runtime g w st)))
        as (Hs & Hc & Hm & _).
      rewrite Hs in Hslot. simpl in Hslot. rewrite Hc, Hm. simpl.
      split; [congruence|done].
  - rewrite (get_runtime_config_absent g w st Hrt Hcfg) in Hslot. simpl in Hslot.
    congruence.
Qed.

(** Later calls, in whatever world, return the cached instance and leave
    the state alone. *)
Lemma run_calls_cached g rt st (ws : list World) :
  _runtime st = Some rt →
  run_calls (get_runtime g) ws st = (map (fun _ => Return (Some rt)) ws, st).
Proof.
  intros Hrt. induction ws as [|w ws IH]; simpl; [done|].
  by rewrite (get_runtime_cached g w st rt Hrt), IH.
Qed.

(** The endpoint without a config file: status 503, state untouched. *)
Lemma generate_motion_config_absent g w req st :
  _runtime st = None →
  path_exists w (CONFIG_PATH g) = false →
  generate_motion g w req st
  = (Raise (HTTPException 503
              ("Model not available: Config not found: " ++ CONFIG_PATH g)), st).
Proof.
  intros Hrt Hcfg. unfold generate_motion. py_unfold.
  by rewrite (get_runtime_config_absent g w st Hrt Hcfg).
Qed.

(** C1. While the config file is absent and no instance exists, every call
    of [get_runtime] raises [FileNotFoundError] and every call of the
    generation endpoint raises [HTTPException] with status 503; after any
    number of such calls the state is the one before them, so the slot is
    still empty (nothing was cached, the next call starts over) and the
    constructor was never entered. *)
Theorem config_absent_every_call g st (ws : list World)
    (reqs : list (World * MotionRequest)) :
  _runtime st = None →
  Forall (fun w => path_exists w (CONFIG_PATH g) = false) ws →
  Forall (fun wr => path_exists wr.1 (CONFIG_PATH g) = false) reqs →
  run_calls (get_runtime g) ws st
  = (map (fun _ => Raise (Exn FileNotFoundError ("Config not found: " ++ CONFIG_PATH g))) ws,
     st)
  ∧ run_calls (fun wr => generate_motion g wr.1 wr.2) reqs st
    = (map (fun _ => Raise (HTTPException 503
                           ("Model not available: Config not found: " ++ CONFIG_PATH g)))
         reqs,
       st).
Proof.
  intros Hrt Hws Hreqs. split.
  - induction Hws as [|w ws Hw _ IH]; simpl; [done|].
    by rewrite (get_runtime_config_absent g w st Hrt Hw), IH.
  - induction Hreqs as [|[w req] reqs Hw _ IH]; simpl; [done|].
    by rewrite (generate_motion_config_absent g w req st Hrt Hw), IH.
Qed.

Lemma config_absent_every_call_witness :
  run_calls (get_runtime Demo.globals) [Demo.unconfigured; Demo.unconfigured] initial_state
  = (map (fun _ => Raise (Exn FileNotFoundError
                            ("Config not found: " ++ CONFIG_PATH Demo.globals)))
       [Demo.unconfigured; Demo.unconfigured],
     initial_state)
  ∧ run_calls (fun wr => generate_motion Demo.globals wr.1 wr.2)
      [(Demo.unconfigured, Demo.request); (Demo.unconfigured, Demo.request)] initial_state
    = (map (fun _ => Raise (HTTPException 503
                           ("Model not available: Config not found: "
                            ++ CONFIG_PATH Demo.globals)))
         [(Demo.unconfigured, Demo.request); (Demo.unconfigured, Demo.request)],
       initial_state).
Proof.
  apply (config_absent_every_call Demo.globals initial_state
           [Demo.unconfigured; Demo.unconfigured]
           [(Demo.unconfigured, Demo.request); (Demo.unconfigured, Demo.request)]).
  - reflexivity.
  - repeat constructor.
  - repeat constructor.
Defined.

(** C7. A failure path that leaves the slot filled: with
    [MMGP_PROFILE=balanced] the constructor succeeds, line 74 assigns the
    instance, then [_apply_mmgp] raises [ValueError] out of [get_runtime].
    The instance stays cached without any offload call having been made, and
    the next call returns it. *)
Theorem get_runtime_failure_keeps_instance :
  let first := get_runtime Demo.globals Demo.misconfigured initial_state in
  let rt := fresh_runtime Demo.globals Demo.misconfigured initial_state in
  first.1 = Raise (Exn ValueError "invalid literal for int() with base 10: 'balanced'")
  ∧ _runtime first.2 = Some rt
  ∧ offload_log first.2 = []
  ∧ get_runtime Demo.globals Demo.misconfigured first.2 = (Return (Some rt), first.2).
Proof. vm_compute. repeat split. Qed.

(** C9. Config file present, checkpoint absent, empty slot: the constructor
    is called with [skip_model_loading=True]; when it returns, its instance
    is the singleton from then on.  The call itself returns that instance
    once [_apply_mmgp] has read [MMGP_PROFILE]; only an interrupt or exit
    raised inside the offload library could still leave it. *)
Theorem get_runtime_checkpoint_absent g w st :
  _runtime st = None →
  path_exists w (CONFIG_PATH g) = true →
  path_exists w (CKPT_PATH g) = false →
  T2MRuntime_init w (runtime_args g w true) = None →
  let rt := {| rt_id := ctor_calls st; rt_args := runtime_args g w true |} in
  skip_model_loading (rt_args rt) = true
  ∧ _runtime (get_runtime g w st).2 = Some rt
  ∧ ctor_calls (get_runtime g w st).2 = S (ctor_calls st)
  ∧ (∀ p, Py.int (environ_get w "MMGP_PROFILE" "1") = Return p →
       (get_runtime g w st).1 = Return (Some rt)
       ∨ ∃ e, (get_runtime g w st).1 = Raise e ∧ Py.is_Exception e = false).
Proof.
  intros Hrt Hcfg Hckpt Hinit rt.
  assert (fresh_runtime g w st = rt) as Hfresh.
  { unfold fresh_runtime, rt. by rewrite Hckpt. }
  assert (T2MRuntime_init w (runtime_args g w (negb (path_exists w (CKPT_PATH g)))) = None)
    as Hinit' by (by rewrite Hckpt).
  rewrite (get_runtime_constructs g w st Hrt Hcfg Hinit'). simpl. rewrite Hfresh.
  pose proof (apply_mmgp_frame w (Some rt) (after_construction st rt))
    as (Hs & Hc & _).
  repeat split; [by rewrite Hs | by rewrite Hc |].
  intros p Hp.
  destruct (apply_mmgp_swallows w (Some rt) (after_construction st rt) p Hp)
    as [Hok | (e & He & Hcls)].
  - left. by rewrite Hok.
  - right. exists e. by rewrite He.
Qed.

Lemma get_runtime_checkpoint_absent_witness :
  let rt := {| rt_id := 0; rt_args := runtime_args Demo.globals Demo.world true |} in
  skip_model_loading (rt_args rt) = true
  ∧ _runtime (get_runtime Demo.globals Demo.world initial_state).2 = Some rt
  ∧ ctor_calls (get_runtime Demo.globals Demo.world initial_state).2 = 1%nat
  ∧ (∀ p, Py.int (environ_get Demo.world "MMGP_PROFILE" "1") = Return p →
       (get_runtime Demo.globals Demo.world initial_state).1 = Return (Some rt)
       ∨ ∃ e, (get_runtime Demo.globals Demo.world initial_state).1 = Raise e
              ∧ Py.is_Exception e = false).
Proof.
  apply (get_runtime_checkpoint_absent Demo.globals Demo.world initial_state);
    reflexivity.
Defined.

(** ** Prompt engineering *)

Lemma lookup_setdefault key value (env : gmap string string) k :
  setdefault key value env !! k
  = if decide (key = k) then Some (default value (env !! key)) else env !! k.
Proof.
  unfold setdefault. destruct (env !! key) as [v|] eqn:Hkey.
  - case_decide; simplify_eq; simpl; by rewrite ?Hkey.
  - rewrite lookup_insert. case_decide; simplify_eq; simpl; done.
Qed.

(** After import, [DISABLE_PROMPT_ENGINEERING] is always set: to the value
    the process was started with, or to ["True"]. *)
Lemma module_environ_prompt_engineering env0 :
  module_environ env0 !! "DISABLE_PROMPT_ENGINEERING"
  = Some (default "True" (env0 !! "DISABLE_PROMPT_ENGINEERING")).
Proof.
  unfold module_environ. rewrite !lookup_setdefault.
  repeat (case_decide; simplify_eq). done.
Qed.

(** [lower] sends exactly a letter and its capital to the letter. *)
Lemma lower_ascii_letter (small capital c : ascii) :
  (small, capital) ∈ [("t", "T"); ("r", "R"); ("u", "U"); ("e", "E")]%char →
  Ascii.eqb (Py.lower_ascii c) small = either_case small capital c.
Proof.
  intros Hin.
  repeat (apply elem_of_cons in Hin as [[= -> ->]|Hin];
          [by destruct c as [[] [] [] [] [] [] [] []]|]).
  by apply elem_of_nil in Hin.
Qed.

(** Comparing the lowered value with ["true"] is comparing the value with
    ["true"] regardless of case. *)
Lemma lower_eqb_true v :
  String.eqb (Py.lower v) "true" = spells_true v.
Proof.
  destruct v as [|a [|b [|c [|d [|e v]]]]]; simpl;
    rewrite ?(lower_ascii_letter "t" "T"), ?(lower_ascii_letter "r" "R"),
      ?(lower_ascii_letter "u" "U"), ?(lower_ascii_letter "e" "E")
      by (repeat constructor);
    repeat (destruct (either_case _ _ _)); reflexivity.
Qed.

(** C10. Line 26 makes sure that [DISABLE_PROMPT_ENGINEERING] is set once
    the module is imported: to the value the process was started with, or
    to ["True"] when it had none.  The instance [get_runtime] constructs has
    prompt engineering disabled exactly when that value is ["true"] in
    whatever mixture of cases.  So the default disables it, and ["1"] or
    ["yes"] leave it enabled. *)
Theorem prompt_engineering_flag env0 g w st rt :
  environ w = module_environ env0 →
  _runtime st = None →
  _runtime (get_runtime g w st).2 = Some rt →
  let v := default "True" (env0 !! "DISABLE_PROMPT_ENGINEERING") in
  environ w !! "DISABLE_PROMPT_ENGINEERING" = Some v
  ∧ disable_prompt_engineering (rt_args rt) = spells_true v
  ∧ (env0 !! "DISABLE_PROMPT_ENGINEERING" = None →
     environ w !! "DISABLE_PROMPT_ENGINEERING" = Some "True"
     ∧ disable_prompt_engineering (rt_args rt) = true)
  ∧ (v = "1" ∨ v = "yes" → disable_prompt_engineering (rt_args rt) = false).
Proof.
  intros Henv Hrt Hslot v.
  destruct (get_runtime_fills_slot g w st rt Hrt Hslot) as (-> & _).
  assert (environ w !! "DISABLE_PROMPT_ENGINEERING" = Some v) as Hset
    by (by rewrite Henv, module_environ_prompt_engineering).
  assert (disable_prompt_engineering (rt_args (fresh_runtime g w st)) = spells_true v)
    as Hflag.
  { simpl. unfold environ_get. rewrite Hset. apply lower_eqb_true. }
  rewrite Hflag. split; [done|]. split; [done|]. split.
  - intros Habs. subst v. rewrite Habs in *. by split.
  - by intros [-> | ->].
Qed.

Lemma prompt_engineering_flag_witness :
  (environ Demo.world !! "DISABLE_PROMPT_ENGINEERING" = Some "True"
   ∧ disable_prompt_engineering
       (rt_args (fresh_runtime Demo.globals Demo.world initial_state)) = true)
  ∧ disable_prompt_engineering
      (rt_args
         (fresh_runtime Demo.globals
            (Demo.with_environ (module_environ {["DISABLE_PROMPT_ENGINEERING" := "yes"]})
               Demo.world)
            initial_state))
    = false.
Proof.
  split.
  - apply (prompt_engineering_flag ∅ Demo.globals Demo.world initial_state
             (fresh_runtime Demo.globals Demo.world initial_state));
      reflexivity.
  - apply (prompt_engineering_flag {["DISABLE_PROMPT_ENGINEERING" := "yes"]} Demo.globals
             (Demo.with_environ (module_environ {["DISABLE_PROMPT_ENGINEERING" := "yes"]})
                Demo.world)
             initial_state
             (fresh_runtime Demo.globals
                (Demo.with_environ (module_environ {["DISABLE_PROMPT_ENGINEERING" := "yes"]})
                   Demo.world)
                initial_state));
      [reflexivity | reflexivity | reflexivity | by right].
Defined.

(** ** One construction, or more *)

(** The cut of [get_runtime] into steps is faithful: a thread that runs
    without interference does what the function does. *)
Lemma run_alone_get_runtime g w st :
  Threads.run_alone g w st
  = (Threads.Finished (get_runtime g w st).1, (get_runtime g w st).2).
Proof.
  unfold Threads.run_alone.
  set (step := fun s : Threads.pc * State => Threads.thread_step g w s.1 s.2).
  change (Nat.iter 6 step (Threads.AtCheck, st))
    with (step (step (step (step (step (step (Threads.AtCheck, st))))))).
  destruct (_runtime st) as [rt|] eqn:Hrt.
  - rewrite (get_runtime_cached g w st rt Hrt).
    assert (step (Threads.AtCheck, st) = (Threads.AtReturn, st)) as ->
      by (unfold step; simpl; by rewrite Hrt).
    assert (step (Threads.AtReturn, st) = (Threads.Finished (Return (Some rt)), st)) as ->
      by (unfold step; simpl; by rewrite Hrt).
    reflexivity.
  - assert (step (Threads.AtCheck, st) = (Threads.AtConfig, st)) as ->
      by (unfold step; simpl; by rewrite Hrt).
    destruct (path_exists w (CONFIG_PATH g)) eqn:Hcfg.
    + assert (step (Threads.AtConfig, st) = (Threads.AtConstruct, st)) as ->
        by (unfold step; simpl; by rewrite Hcfg).
      destruct (T2MRuntime_init w (runtime_args g w (negb (path_exists w (CKPT_PATH g)))))
        as [e|] eqn:Hinit.
      * rewrite (get_runtime_ctor_raises g w st e Hrt Hcfg Hinit).
        assert (step (Threads.AtConstruct, st)
                = (Threads.Finished (Raise e), (tick_ctor st).2)) as ->.
        { unfold step. simpl. unfold new_T2MRuntime. py_unfold. simpl. by rewrite Hinit. }
        reflexivity.
      * rewrite (get_runtime_constructs g w st Hrt Hcfg Hinit).
        set (rt := fresh_runtime g w st).
        assert (step (Threads.AtConstruct, st)
                = (Threads.AtStore rt, (tick_ctor st).2)) as ->.
        { unfold step. simpl. unfold new_T2MRuntime. py_unfold. simpl. by rewrite Hinit. }
        assert (step (Threads.AtStore rt, (tick_ctor st).2)
                = (Threads.AtApply, after_construction st rt)) as -> by done.
        pose proof (apply_mmgp_frame w (Some rt) (after_construction st rt)) as (Hs & _).
        assert (step (Threads.AtApply, after_construction st rt)
                = (match (_apply_mmgp w (Some rt) (after_construction st rt)).1 with
                   | Return _ => Threads.AtReturn
                   | Raise e => Threads.Finished (Raise e)
                   end, (_apply_mmgp w (Some rt) (after_construction st rt)).2)) as ->.
        { unfold step. simpl.
          by destruct (_apply_mmgp _ _ _) as [[[]|e] st']. }
        destruct (_apply_mmgp _ _ _) as [[[]|e] st']; simpl in *; [|done].
        unfold step. simpl. by rewrite Hs.
    + rewrite (get_runtime_config_absent g w st Hrt Hcfg).
      assert (step (Threads.AtConfig, st)
              = (Threads.Finished
                   (Raise (Exn FileNotFoundError ("Config not found: " ++ CONFIG_PATH g))),
                 st)) as ->
        by (unfold step; simpl; by rewrite Hcfg).
      reflexivity.
Qed.

(** Once the slot is filled, a step of any caller changes nothing and
    keeps the caller on the fast path. *)
Lemma thread_step_settled g w rt p st :
  _runtime st = Some rt →
  Threads.settled rt p →
  (Threads.thread_step g w p st).2 = st
  ∧ Threads.settled rt (Threads.thread_step g w p st).1.
Proof.
  intros Hrt [-> | [-> | ->]]; simpl; rewrite ?Hrt; unfold Threads.settled; auto.
Qed.

Lemma run_settled g w rt st sched ts :
  _runtime st = Some rt →
  Forall (Threads.settled rt) ts →
  (Threads.run g w sched (ts, st)).2 = st
  ∧ Forall (Threads.settled rt) (Threads.run g w sched (ts, st)).1.
Proof.
  intros Hrt. revert ts.
  induction sched as [|i sched IH]; intros ts Hts; [done|].
  unfold Threads.run in *. simpl.
  assert (∃ ts1, Threads.system_step g w (ts, st) i = (ts1, st)
                 ∧ Forall (Threads.settled rt) ts1) as (ts1 & -> & Hts1).
  { unfold Threads.system_step. simpl.
    destruct (ts !! i) as [p|] eqn:Hp; [|eauto].
    assert (Threads.settled rt p) as Hset
      by (eapply Forall_lookup_1; eauto).
    destruct (thread_step_settled g w rt p st Hrt Hset) as (Hst & Hp').
    destruct (Threads.thread_step g w p st) as [p' st']. simpl in *. subst st'.
    eexists. split; [done|]. by apply Forall_insert. }
  by apply IH.
Qed.

Lemma system_step_at g w ts st i p p' st' :
  ts !! i = Some p →
  Threads.thread_step g w p st = (p', st') →
  Threads.system_step g w (ts, st) i = (<[i := p']> ts, st').
Proof.
  intros Hp Hstep. unfold Threads.system_step. simpl. by rewrite Hp, Hstep.
Qed.

(** Two callers that take turns up to the constructor call: both find the
    slot empty, both enter the constructor, and each holds an instance of its
    own, not yet assigned. *)
Lemma overlapping_callers_both_construct g w :
  path_exists w (CONFIG_PATH g) = true →
  T2MRuntime_init w (runtime_args g w (negb (path_exists w (CKPT_PATH g)))) = None →
  Threads.run g w [0; 1; 0; 1; 0; 1]%nat (Threads.first_use 2)
  = ([Threads.AtStore
        {| rt_id := 0; rt_args := runtime_args g w (negb (path_exists w (CKPT_PATH g))) |};
      Threads.AtStore
        {| rt_id := 1; rt_args := runtime_args g w (negb (path_exists w (CKPT_PATH g))) |}],
     (tick_ctor (tick_ctor initial_state).2).2).
Proof.
  intros Hcfg Hinit.
  set (args := runtime_args g w (negb (path_exists w (CKPT_PATH g)))) in *.
  assert (∀ st, Threads.thread_step g w Threads.AtConfig st = (Threads.AtConstruct, st))
    as Hconfig.
  { intros st. simpl. by rewrite Hcfg. }
  assert (∀ st, Threads.thread_step g w Threads.AtConstruct st
                = (Threads.AtStore {| rt_id := ctor_calls st; rt_args := args |},
                   (tick_ctor st).2)) as Hconstruct.
  { intros st. simpl. fold args. unfold new_T2MRuntime. py_unfold. simpl.
    by rewrite Hinit. }
  unfold Threads.run, Threads.first_use. cbn [fold_left].
  change (replicate 2 Threads.AtCheck) with [Threads.AtCheck; Threads.AtCheck].
  rewrite (system_step_at g w [Threads.AtCheck; Threads.AtCheck] initial_state 0
             Threads.AtCheck Threads.AtConfig initial_state eq_refl eq_refl).
  simpl (<[_ := _]> _).
  rewrite (system_step_at g w [Threads.AtConfig; Threads.AtCheck] initial_state 1
             Threads.AtCheck Threads.AtConfig initial_state eq_refl eq_refl).
  simpl (<[_ := _]> _).
  rewrite (system_step_at g w [Threads.AtConfig; Threads.AtConfig] initial_state 0
             _ _ _ eq_refl (Hconfig _)).
  simpl (<[_ := _]> _).
  rewrite (system_step_at g w [Threads.AtConstruct; Threads.AtConfig] initial_state 1
             _ _ _ eq_refl (Hconfig _)).
  simpl (<[_ := _]> _).
  rewrite (system_step_at g w [Threads.AtConstruct; Threads.AtConstruct] initial_state 0
             _ _ _ eq_refl (Hconstruct _)).
  simpl (<[_ := _]> _).
  rewrite (system_step_at g w [_; Threads.AtConstruct] _ 1
             _ _ _ eq_refl (Hconstruct _)).
  simpl (<[_ := _]> _).
  reflexivity.
Qed.

(** C2, as the code has it.  [get_runtime] takes no lock.  Once a first
    call on an empty slot has returned an instance, that call has entered
    the constructor once and [_apply_mmgp] once, and from then on nothing is
    constructed or tuned again: calls that follow one another return that
    instance, and so does every caller among any number of overlapping ones,
    under every schedule and in whatever world.  Before that, callers are
    not kept apart: in the same world, two callers that both test the empty
    slot before either has assigned it both enter the constructor, and each
    gets an instance of its own. *)
Theorem get_runtime_constructs_once g w st r st1 :
  _runtime st = None →
  get_runtime g w st = (Return r, st1) →
  ∃ rt, r = Some rt
    ∧ ctor_calls st1 = S (ctor_calls st)
    ∧ mmgp_calls st1 = S (mmgp_calls st)
    ∧ (∀ ws : list World,
         run_calls (get_runtime g) ws st1 = (map (fun _ => Return (Some rt)) ws, st1))
    ∧ (∀ w' n sched,
         (Threads.run g w' sched (replicate n Threads.AtCheck, st1)).2 = st1
         ∧ ∀ o, Threads.Finished o ∈ (Threads.run g w' sched (replicate n Threads.AtCheck, st1)).1 →
                o = Return (Some rt))
    ∧ (Threads.run g w [0; 1; 0; 1; 0; 1]%nat (Threads.first_use 2)).1
      = [Threads.AtStore {| rt_id := 0; rt_args := rt_args rt |};
         Threads.AtStore {| rt_id := 1; rt_args := rt_args rt |}]
    ∧ ctor_calls (Threads.run g w [0; 1; 0; 1; 0; 1]%nat (Threads.first_use 2)).2 = 2%nat.
Proof.
  intros Hrt Hget.
  destruct (get_runtime_returns g w st r st1 Hget) as (rt & -> & Hslot).
  exists rt. split; [done|].
  assert (_runtime (get_runtime g w st).2 = Some rt) as Hslot'
    by (by rewrite Hget).
  destruct (get_runtime_fills_slot g w st rt Hrt Hslot') as (Hfresh & Hc & Hm).
  rewrite Hget in Hc, Hm. simpl in Hc, Hm.
  split; [done|]. split; [done|]. split; [|split].
  - intros ws. by apply run_calls_cached.
  - intros w' n sched.
    destruct (run_settled g w' rt st1 sched (replicate n Threads.AtCheck) Hslot)
      as (Hst & Hts).
    { apply Forall_replicate. by left. }
    split; [done|]. intros o Ho.
    rewrite Forall_forall in Hts.
    destruct (Hts _ Ho) as [? | [? | ?]]; by simplify_eq.
  - assert (path_exists w (CONFIG_PATH g) = true) as Hcfg.
    { destruct (path_exists w (CONFIG_PATH g)) eqn:Hcfg; [done|].
      by rewrite (get_runtime_config_absent g w st Hrt Hcfg) in Hget. }
    assert (T2MRuntime_init w (runtime_args g w (negb (path_exists w (CKPT_PATH g)))) = None)
      as Hinit.
    { destruct (T2MRuntime_init w _) as [e|] eqn:Hinit; [|done].
      by rewrite (get_runtime_ctor_raises g w st e Hrt Hcfg Hinit) in Hget. }
    rewrite (overlapping_callers_both_construct g w Hcfg Hinit), Hfresh. by split.
Qed.

Lemma get_runtime_constructs_once_witness :
  let first := get_runtime Demo.globals Demo.world initial_state in
  ∃ rt, Some (fresh_runtime Demo.globals Demo.world initial_state) = Some rt
    ∧ ctor_calls first.2 = 1%nat
    ∧ mmgp_calls first.2 = 1%nat
    ∧ (∀ ws : list World,
         run_calls (get_runtime Demo.globals) ws first.2
         = (map (fun _ => Return (Some rt)) ws, first.2))
    ∧ (∀ w' n sched,
         (Threads.run Demo.globals w' sched (replicate n Threads.AtCheck, first.2)).2 = first.2
         ∧ ∀ o, Threads.Finished o
                  ∈ (Threads.run Demo.globals w' sched (replicate n Threads.AtCheck, first.2)).1 →
                o = Return (Some rt))
    ∧ (Threads.run Demo.globals Demo.world [0; 1; 0; 1; 0; 1]%nat (Threads.first_use 2)).1
      = [Threads.AtStore {| rt_id := 0; rt_args := rt_args rt |};
         Threads.AtStore {| rt_id := 1; rt_args := rt_args rt |}]
    ∧ ctor_calls
        (Threads.run Demo.globals Demo.world [0; 1; 0; 1; 0; 1]%nat (Threads.first_use 2)).2
      = 2%nat.
Proof.
  apply (get_runtime_constructs_once Demo.globals Demo.world initial_state
           (Some (fresh_runtime Demo.globals Demo.world initial_state))
           (get_runtime Demo.globals Demo.world initial_state).2);
    reflexivity.
Defined.

(** C2, as stated, fails.  Two callers that both test the empty slot before
    either assigns it each construct an instance and each apply the offload
    policy: two constructor calls, two applications, and the callers hold
    different instances. *)
Lemma overlapping_first_use_constructs_twice :
  ¬ Threads.single_construction Demo.globals Demo.world 2.
Proof.
  intros Hsingle.
  destruct (Hsingle Demo.racy_schedule
              (Threads.run Demo.globals Demo.world Demo.racy_schedule (Threads.first_use 2)).1
              (Threads.run Demo.globals Demo.world Demo.racy_schedule (Threads.first_use 2)).2)
    as (Hctor & _).
  - by destruct (Threads.run _ _ _ _).
  - reflexivity.
  - vm_compute in Hctor. discriminate.
Qed.

(** ** The tensor serializer *)

(** Converting the first slice of an array is taking the head of the
    converted array. *)
Lemma tolist_first a n rest :
  shape a = S n :: rest →
  ∃ ps, ndarray_tolist a
        = PList (ndarray_tolist {| shape := rest; data := take (numel rest) (data a) |} :: ps).
Proof.
  intros Hshape. unfold ndarray_tolist. rewrite Hshape. simpl.
  eexists. reflexivity.
Qed.

Lemma tensor_to_list_numpy a n rest :
  shape a = S n :: rest →
  _tensor_to_list (NumpyArray a)
  = Return (ndarray_tolist {| shape := rest; data := take (numel rest) (data a) |}).
Proof.
  intros Hshape. unfold _tensor_to_list, getitem0, ndarray_first. simpl.
  rewrite Hshape. reflexivity.
Qed.

(** A tensor is first moved to the host, whatever its device, and from
    there on treated as the numpy array of its content. *)
Lemma tensor_to_list_torch dev a :
  _tensor_to_list (TorchTensor dev a) = _tensor_to_list (NumpyArray a).
Proof. reflexivity. Qed.

(** C8, as the code has it.  For a torch tensor on any device and for a
    numpy array whose first axis is not empty, [_tensor_to_list] returns the
    plain nested list of the slice at index 0 of the first axis, that is the
    head of the plain conversion of the whole array.  A value that is
    already a plain Python list or float is not passed through: it has no
    [tolist] and the call raises [AttributeError]. *)
Theorem tensor_to_list_batch_first :
  (∀ a n rest,
     shape a = S n :: rest →
     ∃ p ps, ndarray_tolist a = PList (p :: ps)
       ∧ (∀ dev, _tensor_to_list (TorchTensor dev a) = Return p)
       ∧ _tensor_to_list (NumpyArray a) = Return p)
  ∧ (∀ p, _tensor_to_list (PyPlain p) = no_attribute (PyPlain p) "tolist").
Proof.
  split.
  - intros a n rest Hshape.
    destruct (tolist_first a n rest Hshape) as (ps & Hps).
    eexists _, ps. split; [exact Hps|]. split.
    + intros dev. rewrite tensor_to_list_torch.
      by apply tensor_to_list_numpy with n.
    + by apply tensor_to_list_numpy with n.
  - reflexivity.
Qed.

Lemma tensor_to_list_batch_first_witness :
  ∃ p ps,
    ndarray_tolist {| shape := [2; 2; 1]%nat; data := [1; 2; 3; 4]%float |} = PList (p :: ps)
    ∧ (∀ dev, _tensor_to_list
                (TorchTensor dev {| shape := [2; 2; 1]%nat; data := [1; 2; 3; 4]%float |})
              = Return p)
    ∧ _tensor_to_list (NumpyArray {| shape := [2; 2; 1]%nat; data := [1; 2; 3; 4]%float |})
      = Return p.
Proof.
  apply (proj1 tensor_to_list_batch_first
           {| shape := [2; 2; 1]%nat; data := [1; 2; 3; 4]%float |} 1%nat [2; 1]%nat).
  reflexivity.
Defined.

Example tensor_to_list_two_batches :
  _tensor_to_list
    (TorchTensor (cuda_device 0) {| shape := [2; 2; 1]%nat; data := [1; 2; 3; 4]%float |})
  = Return (PList [PList [PFloat 1]; PList [PFloat 2]]).
Proof. reflexivity. Qed.

(** C8, as stated, fails on its last part: a plain list is not returned
    unchanged, the call raises. *)
Lemma tensor_to_list_rejects_plain_list :
  _tensor_to_list (PyPlain (PList [PList [PFloat 1; PFloat 2]]))
  = Raise (Exn AttributeError "'list' object has no attribute 'tolist'")
  ∧ _tensor_to_list (PyPlain (PList [PList [PFloat 1; PFloat 2]]))
    ≠ Return (PList [PList [PFloat 1; PFloat 2]]).
Proof. split; [reflexivity | discriminate]. Qed.

(** ** The endpoint *)

(** C3. When the endpoint returns a response, the runtime it used is the
    singleton, [num_frames] is entry 1 of the shape of the ["keypoints3d"]
    array which that runtime's [generate_motion] returned for this request,
    and [fps] is 30, whatever the request (and its duration) was. *)
Theorem generate_motion_num_frames g w req st resp st' :
  valid_request req = true →
  generate_motion g w req st = (Return resp, st') →
  ∃ rt tmpdir out kp s n,
    _runtime st' = Some rt
    ∧ runtime_generate_motion w rt
        {| ga_text := text req; ga_seeds_csv := pretty (seed req);
           ga_duration := duration req; ga_cfg_scale := cfg_scale req;
           ga_output_format := "dict"; ga_output_dir := tmpdir;
           ga_original_text := text req |} = Return out
    ∧ out !! "keypoints3d" = Some kp
    ∧ get_shape kp = Return s
    ∧ s !! 1%nat = Some n
    ∧ num_frames (motion resp) = Z.of_nat n
    ∧ fps (motion resp) = 30.
Proof.
  intros _ Hgen. unfold generate_motion in Hgen.
  unfold mbind at 1, py_bind at 1, bind at 1, try_except at 1 in Hgen.
  destruct (get_runtime g w st) as [[r|e] st1] eqn:Hget.
  2: { py_unfold. py_cases. }
  destruct (get_runtime_returns g w st r st1 Hget) as (rt & -> & Hslot).
  unfold with_TemporaryDirectory, dict_getitem, shape_at, call_generate in Hgen.
  py_unfold.
  destruct (mkdtemp w "hymotion_") as [tmpdir|e]; [|done].
  destruct (runtime_generate_motion w rt _) as [out|e] eqn:Hout; simpl in Hgen.
  2: { py_cases. }
  destruct (out !! "keypoints3d") as [kp|] eqn:Hkp; [|done].
  destruct (out !! "rot6d"); [|done].
  destruct (out !! "transl"); [|done].
  destruct (out !! "root_rotations_mat"); [|done].
  destruct (get_shape kp) as [s|] eqn:Hs; [|done].
  destruct (s !! 1%nat) as [n|] eqn:Hn; [|done].
  repeat (match type of Hgen with
          | context [_tensor_to_list ?x] => destruct (_tensor_to_list x); [|done]
          end).
  simplify_eq.
  exists rt, tmpdir, out, kp, s, n. simpl. by rewrite Hslot.
Qed.

Lemma generate_motion_num_frames_witness :
  ∃ rt tmpdir out kp s n,
    _runtime (generate_motion Demo.globals Demo.world Demo.request initial_state).2 = Some rt
    ∧ runtime_generate_motion Demo.world rt
        {| ga_text := text Demo.request; ga_seeds_csv := pretty (seed Demo.request);
           ga_duration := duration Demo.request; ga_cfg_scale := cfg_scale Demo.request;
           ga_output_format := "dict"; ga_output_dir := tmpdir;
           ga_original_text := text Demo.request |} = Return out
    ∧ out !! "keypoints3d" = Some kp
    ∧ get_shape kp = Return s
    ∧ s !! 1%nat = Some n
    ∧ num_frames (motion Demo.response) = Z.of_nat n
    ∧ fps (motion Demo.response) = 30.
Proof.
  apply (generate_motion_num_frames Demo.globals Demo.world Demo.request initial_state
           Demo.response);
    reflexivity.
Defined.


(** * Further properties *)

(** ** Module initialisation *)

Lemma lookup_module_environ env0 k :
  module_environ env0 !! k
  = match env0 !! k with
    | Some v => Some v
    | None => import_default k
    end.
Proof.
  unfold module_environ, import_default. rewrite !lookup_setdefault.
  repeat (case_decide; simplify_eq/=);
    rewrite ?lookup_setdefault; repeat (case_decide; simplify_eq/=);
    by destruct (env0 !! _).
Qed.

(** X1. Import never overrides the process environment: a variable that is
    set keeps its value, and of the unset ones exactly [QWEN_QUANTIZATION],
    [DISABLE_PROMPT_ENGINEERING] and [USE_HF_MODELS] receive their
    defaults. *)
Theorem module_environ_keeps_settings env0 k :
  (∀ v, env0 !! k = Some v → module_environ env0 !! k = Some v)
  ∧ (env0 !! k = None → module_environ env0 !! k = import_default k)
  ∧ (module_environ env0 !! k = None →
     env0 !! k = None
     ∧ k ≠ "QWEN_QUANTIZATION" ∧ k ≠ "DISABLE_PROMPT_ENGINEERING" ∧ k ≠ "USE_HF_MODELS").
Proof.
  rewrite lookup_module_environ. repeat split.
  - by intros v ->.
  - by intros ->.
  - by destruct (env0 !! k).
  - intros ->. destruct (env0 !! _); [done|]. vm_compute in H. done.
  - intros ->. destruct (env0 !! _); [done|]. vm_compute in H. done.
  - intros ->. destruct (env0 !! _); [done|]. vm_compute in H. done.
Qed.

Lemma module_environ_keeps_settings_witness :
  module_environ {["QWEN_QUANTIZATION" := "none"]} !! "QWEN_QUANTIZATION" = Some "none".
Proof.
  apply (proj1 (module_environ_keeps_settings {["QWEN_QUANTIZATION" := "none"]}
                  "QWEN_QUANTIZATION")
           "none").
  reflexivity.
Defined.

(** X2. Running the initialisation again (a reload of the module) changes
    nothing. *)
Theorem module_environ_idempotent env0 :
  module_environ (module_environ env0) = module_environ env0.
Proof.
  apply map_eq. intros k. rewrite (lookup_module_environ (module_environ env0)).
  rewrite lookup_module_environ.
  destruct (env0 !! k); [done|]. by destruct (import_default k).
Qed.

(** ** The offload policy: every way out *)

Ltac mmgp_state :=
  unfold after_mmgp, mmgp_info, mmgp_warning, mmgp_applying, mmgp_active, mmgp_error;
  simpl; rewrite <- ?app_assoc, ?app_nil_r; simpl; try reflexivity.

(** X3. Without the [mmgp] library the policy prints its notice, calls
    nothing and returns. *)
Theorem apply_mmgp_without_library w r st p e :
  Py.int (environ_get w "MMGP_PROFILE" "1") = Return p →
  0 < p →
  import_mmgp w = Some e →
  Py.is_ImportError e = true →
  _apply_mmgp w r st = (Return tt, after_mmgp st [] [mmgp_info]).
Proof.
  intros Hp Hpos Himp He. unfold _apply_mmgp. py_unfold. simpl.
  rewrite Hp. assert ((p <=? 0) = false) as -> by lia.
  rewrite Himp, He. mmgp_state.
Qed.

Lemma apply_mmgp_without_library_witness :
  _apply_mmgp Scenario.no_mmgp (Some Scenario.warm_runtime) initial_state
  = (Return tt, after_mmgp initial_state [] [mmgp_info]).
Proof.
  apply (apply_mmgp_without_library Scenario.no_mmgp _ initial_state 1
           (Exn ModuleNotFoundError "No module named 'mmgp'"));
    [reflexivity | lia | reflexivity | reflexivity].
Defined.

(** X4. A runtime that yields no components gets a warning and no call to
    [offload.profile]. *)
Theorem apply_mmgp_nothing_to_offload w r st p :
  Py.int (environ_get w "MMGP_PROFILE" "1") = Return p →
  0 < p →
  import_mmgp w = None →
  call_extract w r = Return [] →
  _apply_mmgp w r st = (Return tt, after_mmgp st [] [mmgp_warning]).
Proof.
  intros Hp Hpos Himp Hext. unfold _apply_mmgp. py_unfold. simpl.
  rewrite Hp. assert ((p <=? 0) = false) as -> by lia.
  rewrite Himp, Hext. mmgp_state.
Qed.

Lemma apply_mmgp_nothing_to_offload_witness :
  _apply_mmgp Scenario.no_components (Some Scenario.warm_runtime) initial_state
  = (Return tt, after_mmgp initial_state [] [mmgp_warning]).
Proof.
  apply (apply_mmgp_nothing_to_offload Scenario.no_components _ initial_state 1);
    [reflexivity | lia | reflexivity | reflexivity].
Defined.

(** X5. When [offload.profile] raises an [Exception], the policy has
    announced the profile, reports the failure and returns; the line that
    says offloading is active is not printed.  An [ImportError] raised from
    inside the pass is reported as the library not being installed. *)
Theorem apply_mmgp_pass_fails w r st p pipe v e :
  Py.int (environ_get w "MMGP_PROFILE" "1") = Return p →
  0 < p →
  import_mmgp w = None →
  call_extract w r = Return pipe →
  pipe ≠ [] →
  Py.int (environ_get w "MMGP_VERBOSE" "1") = Return v →
  let call := {| oc_pipe := pipe; oc_profile_no := p; oc_verboseLevel := v;
                 oc_kwargs := mmgp_kwargs p |} in
  offload_profile w call = Some e →
  Py.is_Exception e = true →
  _apply_mmgp w r st
  = (Return tt,
     after_mmgp st [call]
       [mmgp_applying p; if Py.is_ImportError e then mmgp_info else mmgp_error e]).
Proof.
  intros Hp Hpos Himp Hext Hne Hv call Hcall He.
  unfold _apply_mmgp. py_unfold. simpl.
  rewrite Hp. assert ((p <=? 0) = false) as -> by lia.
  rewrite Himp, Hext. destruct pipe as [|c pipe]; [done|].
  rewrite Hv. simpl. fold call. rewrite Hcall. simpl. rewrite He.
  destruct (Py.is_ImportError e); mmgp_state.
Qed.

Lemma apply_mmgp_pass_fails_witness :
  let call := {| oc_pipe := ["transformer"; "text_encoder"]; oc_profile_no := 1;
                 oc_verboseLevel := 1; oc_kwargs := mmgp_kwargs 1 |} in
  _apply_mmgp Scenario.offload_fails (Some Scenario.warm_runtime) initial_state
  = (Return tt,
     after_mmgp initial_state [call]
       [mmgp_applying 1;
        if Py.is_ImportError (Exn RuntimeError "CUDA error: out of memory")
        then mmgp_info
        else mmgp_error (Exn RuntimeError "CUDA error: out of memory")]).
Proof.
  apply (apply_mmgp_pass_fails Scenario.offload_fails _ initial_state 1
           ["transformer"; "text_encoder"] 1
           (Exn RuntimeError "CUDA error: out of memory"));
    [reflexivity | lia | reflexivity | reflexivity | discriminate
    | reflexivity | reflexivity | reflexivity].
Defined.

(** [int] fails with a [ValueError] and nothing else. *)
Lemma int_raises_ValueError s e :
  Py.int s = Raise e → ∃ msg, e = Exn ValueError msg.
Proof.
  unfold Py.int. destruct (Py.parse_int s); intros; simplify_eq; eauto.
Qed.

(** X6. An unreadable [MMGP_VERBOSE] is swallowed, unlike an unreadable
    [MMGP_PROFILE]: line 58 is inside the [try], so whatever [int] raises
    there is reported with its own text, no call is made and the policy
    returns. *)
Theorem apply_mmgp_unreadable_verbosity w r st p pipe e :
  Py.int (environ_get w "MMGP_PROFILE" "1") = Return p →
  0 < p →
  import_mmgp w = None →
  call_extract w r = Return pipe →
  pipe ≠ [] →
  Py.int (environ_get w "MMGP_VERBOSE" "1") = Raise e →
  _apply_mmgp w r st = (Return tt, after_mmgp st [] [mmgp_error e]).
Proof.
  intros Hp Hpos Himp Hext Hne Hv.
  destruct (int_raises_ValueError _ _ Hv) as (msg & ->).
  unfold _apply_mmgp. py_unfold. simpl.
  rewrite Hp. assert ((p <=? 0) = false) as -> by lia.
  rewrite Himp, Hext. destruct pipe as [|c pipe]; [done|].
  rewrite Hv. mmgp_state.
Qed.

Lemma apply_mmgp_unreadable_verbosity_witness :
  _apply_mmgp Scenario.unreadable_verbosity (Some Scenario.warm_runtime) initial_state
  = (Return tt,
     after_mmgp initial_state []
       [mmgp_error
          (Exn ValueError "invalid literal for int() with base 10: 'debug'")]).
Proof.
  apply (apply_mmgp_unreadable_verbosity Scenario.unreadable_verbosity _ initial_state 1
           ["transformer"; "text_encoder"]
           (Exn ValueError "invalid literal for int() with base 10: 'debug'"));
    [reflexivity | lia | reflexivity | reflexivity | discriminate | reflexivity].
Defined.

(** X7. A pass that goes through makes its one call between the two lines
    it prints. *)
Theorem apply_mmgp_pass_succeeds w r st p pipe v :
  Py.int (environ_get w "MMGP_PROFILE" "1") = Return p →
  0 < p →
  import_mmgp w = None →
  call_extract w r = Return pipe →
  pipe ≠ [] →
  Py.int (environ_get w "MMGP_VERBOSE" "1") = Return v →
  let call := {| oc_pipe := pipe; oc_profile_no := p; oc_verboseLevel := v;
                 oc_kwargs := mmgp_kwargs p |} in
  offload_profile w call = None →
  _apply_mmgp w r st
  = (Return tt, after_mmgp st [call] [mmgp_applying p; mmgp_active p]).
Proof.
  intros Hp Hpos Himp Hext Hne Hv call Hcall.
  unfold _apply_mmgp. py_unfold. simpl.
  rewrite Hp. assert ((p <=? 0) = false) as -> by lia.
  rewrite Himp, Hext. destruct pipe as [|c pipe]; [done|].
  rewrite Hv. simpl. fold call. rewrite Hcall. mmgp_state.
Qed.

Lemma apply_mmgp_pass_succeeds_witness :
  let call := {| oc_pipe := ["transformer"; "text_encoder"]; oc_profile_no := 2;
                 oc_verboseLevel := 1; oc_kwargs := mmgp_kwargs 2 |} in
  _apply_mmgp (Demo.with_profile "2") (Some Scenario.warm_runtime) initial_state
  = (Return tt, after_mmgp initial_state [call] [mmgp_applying 2; mmgp_active 2]).
Proof.
  apply (apply_mmgp_pass_succeeds (Demo.with_profile "2") _ initial_state 2
           ["transformer"; "text_encoder"] 1);
    [reflexivity | lia | reflexivity | reflexivity | discriminate
    | reflexivity | reflexivity].
Defined.

(** X8. Whatever the world, [_apply_mmgp] calls [offload.profile] at most
    once, and only with the positive profile read from [MMGP_PROFILE], the
    keyword arguments that belong to it, and the non-empty component set the
    runtime gave. *)
Theorem apply_mmgp_at_most_one_call w r st :
  offload_log (_apply_mmgp w r st).2 = offload_log st
  ∨ ∃ c, offload_log (_apply_mmgp w r st).2 = (offload_log st ++ [c])%list
       ∧ Py.int (environ_get w "MMGP_PROFILE" "1") = Return (oc_profile_no c)
       ∧ 0 < oc_profile_no c
       ∧ oc_kwargs c = mmgp_kwargs (oc_profile_no c)
       ∧ import_mmgp w = None
       ∧ call_extract w r = Return (oc_pipe c)
       ∧ oc_pipe c ≠ [].
Proof.
  unfold _apply_mmgp. py_unfold. simpl.
  destruct (Py.int (environ_get w "MMGP_PROFILE" "1")) as [p|e] eqn:Hp; [|by left].
  destruct (p <=? 0) eqn:Hle; [by left|].
  destruct (import_mmgp w) as [e|] eqn:Himp.
  { left. py_cases. }
  destruct (call_extract w r) as [[|c pipe]|e] eqn:Hext.
  1, 3: left; py_cases.
  destruct (Py.int (environ_get w "MMGP_VERBOSE" "1")) as [v|e] eqn:Hv.
  2: { left. py_cases. }
  right. eexists {| oc_pipe := c :: pipe; oc_profile_no := p; oc_verboseLevel := v;
                    oc_kwargs := mmgp_kwargs p |}.
  simpl. split; [py_cases|].
  repeat split; try done. lia.
Qed.


(** ** The singleton across calls *)

Lemma get_runtime_tmpdirs g w st :
  tmpdirs (get_runtime g w st).2 = tmpdirs st.
Proof.
  destruct (_runtime st) as [rt|] eqn:Hrt.
  - by rewrite (get_runtime_cached g w st rt Hrt).
  - destruct (path_exists w (CONFIG_PATH g)) eqn:Hcfg.
    + destruct (T2MRuntime_init w (runtime_args g w (negb (path_exists w (CKPT_PATH g)))))
        as [e|] eqn:Hinit.
      * by rewrite (get_runtime_ctor_raises g w st e Hrt Hcfg Hinit).
      * rewrite (get_runtime_constructs g w st Hrt Hcfg Hinit). simpl.
        by destruct (apply_mmgp_frame w (Some (fresh_runtime g w st))
                       (after_construction st (fresh_runtime g w st))) as (_ & _ & _ & ->).
    + by rewrite (get_runtime_config_absent g w st Hrt Hcfg).
Qed.

Lemma get_runtime_lifecycle g w st :
  lifecycle_invariant st → lifecycle_invariant (get_runtime g w st).2.
Proof.
  unfold lifecycle_invariant. intros Hinv.
  destruct (_runtime st) as [rt|] eqn:Hrt.
  - rewrite (get_runtime_cached g w st rt Hrt). simpl. by rewrite Hrt.
  - destruct (path_exists w (CONFIG_PATH g)) eqn:Hcfg.
    + destruct (T2MRuntime_init w (runtime_args g w (negb (path_exists w (CKPT_PATH g)))))
        as [e|] eqn:Hinit.
      * rewrite (get_runtime_ctor_raises g w st e Hrt Hcfg Hinit). simpl.
        by rewrite Hrt.
      * rewrite (get_runtime_constructs g w st Hrt Hcfg Hinit). simpl.
        destruct (apply_mmgp_frame w (Some (fresh_runtime g w st))
                    (after_construction st (fresh_runtime g w st)))
          as (-> & -> & -> & _).
        simpl. rewrite Hinv. split; [done|lia].
    + rewrite (get_runtime_config_absent g w st Hrt Hcfg). simpl. by rewrite Hrt.
Qed.

(** X9. In a fresh process, over any number of calls one after another, in
    whatever worlds and however many of them fail, the offload policy is
    entered at most once: not at all while the slot is empty, exactly once
    when it is filled, and the cached instance comes from a counted
    constructor call. *)
Theorem apply_mmgp_entered_at_most_once g (ws : list World) :
  lifecycle_invariant (run_calls (get_runtime g) ws initial_state).2.
Proof.
  assert (∀ st, lifecycle_invariant st →
                lifecycle_invariant (run_calls (get_runtime g) ws st).2) as Hgen.
  { induction ws as [|w ws IH]; intros st Hinv; simpl; [done|].
    pose proof (get_runtime_lifecycle g w st Hinv) as Hstep.
    destruct (get_runtime g w st) as [o st1]. simpl in *.
    specialize (IH st1 Hstep).
    by destruct (run_calls (get_runtime g) ws st1). }
  apply Hgen. reflexivity.
Qed.

(** X10. A constructor failure is not remembered either: the call raises
    what the constructor raised, the slot stays empty and the offload policy
    is not entered; the next call, finding the constructor willing, builds
    the instance with the next identity and caches it. *)
Theorem get_runtime_retries_after_failure g w1 w2 st e :
  _runtime st = None →
  path_exists w1 (CONFIG_PATH g) = true →
  T2MRuntime_init w1 (runtime_args g w1 (negb (path_exists w1 (CKPT_PATH g)))) = Some e →
  path_exists w2 (CONFIG_PATH g) = true →
  T2MRuntime_init w2 (runtime_args g w2 (negb (path_exists w2 (CKPT_PATH g)))) = None →
  let st1 := (get_runtime g w1 st).2 in
  let st2 := (get_runtime g w2 st1).2 in
  (get_runtime g w1 st).1 = Raise e
  ∧ _runtime st1 = None
  ∧ mmgp_calls st1 = mmgp_calls st
  ∧ _runtime st2
    = Some {| rt_id := S (ctor_calls st);
              rt_args := runtime_args g w2 (negb (path_exists w2 (CKPT_PATH g))) |}
  ∧ ctor_calls st2 = S (S (ctor_calls st))
  ∧ mmgp_calls st2 = S (mmgp_calls st).
Proof.
  intros Hrt Hcfg1 Hinit1 Hcfg2 Hinit2 st1 st2. subst st2 st1.
  rewrite (get_runtime_ctor_raises g w1 st e Hrt Hcfg1 Hinit1). cbn [fst snd].
  set (st1 := (tick_ctor st).2).
  assert (_runtime st1 = None) as Hrt1 by done.
  split; [done|]. split; [done|]. split; [done|].
  rewrite (get_runtime_constructs g w2 st1 Hrt1 Hcfg2 Hinit2). cbn [fst snd].
  destruct (apply_mmgp_frame w2 (Some (fresh_runtime g w2 st1))
              (after_construction st1 (fresh_runtime g w2 st1)))
    as (-> & -> & -> & _).
  done.
Qed.

Lemma get_runtime_retries_after_failure_witness :
  let st1 := (get_runtime Demo.globals Scenario.ctor_fails initial_state).2 in
  let st2 := (get_runtime Demo.globals Demo.world st1).2 in
  (get_runtime Demo.globals Scenario.ctor_fails initial_state).1
  = Raise (Exn RuntimeError "checkpoint is corrupt")
  ∧ _runtime st1 = None
  ∧ mmgp_calls st1 = mmgp_calls initial_state
  ∧ _runtime st2
    = Some {| rt_id := S (ctor_calls initial_state);
              rt_args := runtime_args Demo.globals Demo.world
                           (negb (path_exists Demo.world (CKPT_PATH Demo.globals))) |}
  ∧ ctor_calls st2 = S (S (ctor_calls initial_state))
  ∧ mmgp_calls st2 = S (mmgp_calls initial_state).
Proof.
  apply (get_runtime_retries_after_failure Demo.globals Scenario.ctor_fails Demo.world
           initial_state (Exn RuntimeError "checkpoint is corrupt"));
    reflexivity.
Defined.

(** ** The startup hook *)

(** X11. The startup hook is best-effort: no [Exception] leaves it (only an
    interrupt or exit could), and it leaves the slot as its call of
    [get_runtime] left it. *)
Theorem lifespan_never_fails g w st :
  ((lifespan g w st).1 = Return tt
   ∨ ∃ e, (lifespan g w st).1 = Raise e ∧ Py.is_Exception e = false)
  ∧ _runtime (lifespan g w st).2 = _runtime (get_runtime g w st).2.
Proof.
  unfold lifespan. py_unfold.
  destruct (get_runtime g w st) as [[r|e] st1]; simpl.
  - split; [by left|done].
  - destruct (Py.is_Exception e) eqn:He; simpl.
    + split; [by left|done].
    + split; [|done]. right. by exists e.
Qed.

(** X12. Started without a config file, the process comes up: the hook
    prints why the runtime is not loaded, and nothing else changes. *)
Theorem lifespan_config_absent g w st :
  _runtime st = None →
  path_exists w (CONFIG_PATH g) = false →
  lifespan g w st
  = print (startup_warning (Exn FileNotFoundError ("Config not found: " ++ CONFIG_PATH g))) st.
Proof.
  intros Hrt Hcfg. unfold lifespan. py_unfold.
  by rewrite (get_runtime_config_absent g w st Hrt Hcfg).
Qed.

Lemma lifespan_config_absent_witness :
  lifespan Demo.globals Demo.unconfigured initial_state
  = print (startup_warning
             (Exn FileNotFoundError ("Config not found: " ++ CONFIG_PATH Demo.globals)))
      initial_state.
Proof.
  apply (lifespan_config_absent Demo.globals Demo.unconfigured initial_state);
    reflexivity.
Defined.

(** X13. A preload that succeeds makes every later call warm: the hook
    returns, and [get_runtime] from then on finds the instance and
    constructs nothing, in whatever world. *)
Theorem lifespan_preloads g w st r st1 (ws : list World) :
  _runtime st = None →
  get_runtime g w st = (Return r, st1) →
  lifespan g w st = (Return tt, st1)
  ∧ ∃ rt, _runtime st1 = Some rt
    ∧ run_calls (get_runtime g) ws st1 = (map (fun _ => Return (Some rt)) ws, st1).
Proof.
  intros Hrt Hget. split.
  - unfold lifespan. py_unfold. by rewrite Hget.
  - destruct (get_runtime_returns g w st r st1 Hget) as (rt & _ & Hslot).
    exists rt. split; [done|]. by apply run_calls_cached.
Qed.

Lemma lifespan_preloads_witness :
  lifespan Demo.globals Demo.world initial_state = (Return tt, Scenario.warm_state)
  ∧ ∃ rt, _runtime Scenario.warm_state = Some rt
    ∧ run_calls (get_runtime Demo.globals) [Demo.unconfigured; Scenario.ctor_fails]
        Scenario.warm_state
      = (map (fun _ => Return (Some rt)) [Demo.unconfigured; Scenario.ctor_fails],
         Scenario.warm_state).
Proof.
  apply (lifespan_preloads Demo.globals Demo.world initial_state
           (Some Scenario.warm_runtime) Scenario.warm_state
           [Demo.unconfigured; Scenario.ctor_fails]);
    reflexivity.
Defined.


(** ** The tensor serializer: shapes *)

Lemma tolist_rec_length n rest d :
  ∃ l, tolist_rec (n :: rest) d = PList l ∧ length l = n.
Proof.
  eexists. split; [reflexivity|]. by rewrite length_map, length_seq.
Qed.

Lemma tolist_rec_vector (pre d : list float) :
  map (fun i => tolist_rec [] (take (numel []) (drop (i * numel []) (pre ++ d)%list)))
    (seq (length pre) (length d))
  = map PFloat d.
Proof.
  revert pre. induction d as [|x d IH]; intros pre; [done|].
  simpl. f_equal.
  - rewrite Nat.mul_1_r, drop_app_length. done.
  - specialize (IH (pre ++ [x])%list).
    rewrite length_app, Nat.add_1_r, <- app_assoc in IH. exact IH.
Qed.

(** X14. The two degenerate arrays.  An array whose first axis is empty
    has no element 0: the call raises [IndexError].  An array without axes
    (a scalar) is not indexed at all and converts to its number. *)
Theorem tensor_to_list_degenerate a :
  (∀ rest dev,
     shape a = O :: rest →
     _tensor_to_list (TorchTensor dev a)
     = Raise (Exn IndexError "index 0 is out of bounds for axis 0 with size 0")
     ∧ _tensor_to_list (NumpyArray a)
       = Raise (Exn IndexError "index 0 is out of bounds for axis 0 with size 0"))
  ∧ (∀ x dev,
       shape a = [] → data a = [x] →
       _tensor_to_list (TorchTensor dev a) = Return (PFloat x)
       ∧ _tensor_to_list (NumpyArray a) = Return (PFloat x)).
Proof.
  split.
  - intros rest dev Hshape. rewrite tensor_to_list_torch.
    unfold _tensor_to_list, getitem0, ndarray_first. simpl. by rewrite Hshape.
  - intros x dev Hshape Hdata. rewrite tensor_to_list_torch.
    unfold _tensor_to_list. simpl. rewrite Hshape. simpl.
    unfold ndarray_tolist. by rewrite Hshape, Hdata.
Qed.

Lemma tensor_to_list_degenerate_witness :
  (_tensor_to_list (TorchTensor (cuda_device 0) {| shape := [0; 22; 3]%nat; data := [] |})
   = Raise (Exn IndexError "index 0 is out of bounds for axis 0 with size 0")
   ∧ _tensor_to_list (NumpyArray {| shape := [0; 22; 3]%nat; data := [] |})
     = Raise (Exn IndexError "index 0 is out of bounds for axis 0 with size 0"))
  ∧ (_tensor_to_list (TorchTensor cpu_device {| shape := []; data := [0.5%float] |})
     = Return (PFloat 0.5)
     ∧ _tensor_to_list (NumpyArray {| shape := []; data := [0.5%float] |})
       = Return (PFloat 0.5)).
Proof.
  split.
  - apply (proj1 (tensor_to_list_degenerate {| shape := [0; 22; 3]%nat; data := [] |})
             [22; 3]%nat (cuda_device 0)).
    reflexivity.
  - apply (proj2 (tensor_to_list_degenerate {| shape := []; data := [0.5%float] |})
             0.5%float cpu_device); reflexivity.
Defined.

(** X15. A batch holding one vector serialises to the list of its numbers,
    in order. *)
Theorem tensor_to_list_vector a n :
  shape a = [1; n]%nat →
  length (data a) = n →
  (∀ dev, _tensor_to_list (TorchTensor dev a) = Return (PList (map PFloat (data a))))
  ∧ _tensor_to_list (NumpyArray a) = Return (PList (map PFloat (data a))).
Proof.
  intros Hshape Hlen.
  assert (_tensor_to_list (NumpyArray a) = Return (PList (map PFloat (data a)))) as Hnp.
  { rewrite (tensor_to_list_numpy a 0 [n] Hshape). f_equal.
    unfold ndarray_tolist. cbn [shape data].
    assert (take (numel [n]) (data a) = data a) as ->.
    { apply take_ge. unfold numel. simpl. lia. }
    cbn [tolist_rec]. f_equal.
    rewrite <- Hlen. exact (tolist_rec_vector [] (data a)). }
  split; [|done]. intros dev. by rewrite tensor_to_list_torch.
Qed.

Lemma tensor_to_list_vector_witness :
  (∀ dev, _tensor_to_list (TorchTensor dev {| shape := [1; 3]%nat; data := [0.5; 1; 2]%float |})
          = Return (PList (map PFloat [0.5; 1; 2]%float)))
  ∧ _tensor_to_list (NumpyArray {| shape := [1; 3]%nat; data := [0.5; 1; 2]%float |})
    = Return (PList (map PFloat [0.5; 1; 2]%float)).
Proof.
  apply (tensor_to_list_vector {| shape := [1; 3]%nat; data := [0.5; 1; 2]%float |} 3);
    reflexivity.
Defined.

(** Whatever [_tensor_to_list] makes of a value with a second axis is a
    list with one item per index of that axis. *)
Lemma tensor_to_list_second_axis x s n p :
  get_shape x = Return s →
  s !! 1%nat = Some n →
  _tensor_to_list x = Return p →
  ∃ l, p = PList l ∧ length l = n.
Proof.
  intros Hs Hn Hp.
  assert (∃ a, _tensor_to_list x = _tensor_to_list (NumpyArray a) ∧ shape a = s)
    as (a & Heq & Hshape).
  { destruct x as [dev a|a|q]; simpl in Hs; simplify_eq; eauto. }
  rewrite Heq in Hp. clear Heq Hs x. subst s.
  destruct (shape a) as [|[|b] [|m rest]] eqn:Hshape; simplify_eq/=.
  - revert Hp. unfold _tensor_to_list, getitem0, ndarray_first. simpl.
    by rewrite Hshape.
  - rewrite (tensor_to_list_numpy a b (n :: rest) Hshape) in Hp. simplify_eq.
    apply tolist_rec_length.
Qed.

(** ** The endpoint: every way out *)

Lemma scratch_removed_pushed d st :
  set_tmpdirs (filter (fun x => x ≠ d)) (set_tmpdirs (cons d) st) = scratch_removed d st.
Proof.
  unfold scratch_removed, set_tmpdirs. simpl. f_equal.
  by rewrite filter_cons_False by (intros Hne; by apply Hne).
Qed.

(** The endpoint is the composition of its parts. *)
Lemma generate_motion_unfold g w req st :
  generate_motion g w req st
  = match get_runtime g w st with
    | (Raise e, st1) => (Raise (unavailable e), st1)
    | (Return r, st1) =>
        match mkdtemp w "hymotion_" with
        | Raise e => (Raise e, st1)
        | Return d => (serve w r req d, scratch_removed d st1)
        end
    end.
Proof.
  unfold generate_motion, with_TemporaryDirectory, serve, unavailable,
    generation_failed, assemble. py_unfold.
  destruct (get_runtime g w st) as [[r|e] st1].
  - destruct (mkdtemp w "hymotion_") as [d|e]; [|done].
    fold (request_args req d). rewrite <- scratch_removed_pushed.
    destruct (call_generate w r (request_args req d)) as [out|e]; simpl.
    + reflexivity.
    + by destruct (Py.is_Exception e).
  - destruct (Py.is_FileNotFoundError e); [done|].
    by destruct (Py.is_Exception e).
Qed.

(** X16. Any [Exception] that stops [get_runtime] reaches the client as
    status 503: with "Model not available" when it is a
    [FileNotFoundError], also one raised inside the constructor, and with
    "Service unavailable" otherwise, followed by the exception's text.  The
    state is the one [get_runtime] left. *)
Theorem generate_motion_unavailable g w req st e st1 :
  get_runtime g w st = (Raise e, st1) →
  Py.is_Exception e = true →
  generate_motion g w req st
  = (Raise (HTTPException 503
              ((if Py.is_FileNotFoundError e
                then "Model not available: " else "Service unavailable: ")
               ++ Py.str e)),
     st1).
Proof.
  intros Hget He. rewrite generate_motion_unfold, Hget. unfold unavailable.
  rewrite He. by destruct (Py.is_FileNotFoundError e).
Qed.

Lemma generate_motion_unavailable_witness :
  generate_motion Demo.globals Scenario.ctor_fails Demo.request initial_state
  = (Raise (HTTPException 503
              ((if Py.is_FileNotFoundError (Exn RuntimeError "checkpoint is corrupt")
                then "Model not available: " else "Service unavailable: ")
               ++ Py.str (Exn RuntimeError "checkpoint is corrupt"))),
     (tick_ctor initial_state).2).
Proof.
  apply (generate_motion_unavailable Demo.globals Scenario.ctor_fails Demo.request
           initial_state);
    reflexivity.
Defined.



(** X18. 503 is the only status the endpoint function itself ever raises,
    once the scratch directory could be created. *)
Theorem generate_motion_only_503 g w req st c detail st' d :
  mkdtemp w "hymotion_" = Return d →
  generate_motion g w req st = (Raise (HTTPException c detail), st') →
  c = 503.
Proof.
  intros Hdir. rewrite generate_motion_unfold.
  destruct (get_runtime g w st) as [[r|e] st1].
  - rewrite Hdir. intros Hgen. injection Hgen as Ho _. revert Ho.
    unfold serve, generation_failed, assemble, dict_getitem, shape_at.
    destruct (call_generate w r _) as [out|e].
    + unfold mbind, outcome_bind.
      destruct (out !! "keypoints3d") as [kp|]; [|done].
      destruct (out !! "rot6d") as [r6|]; [|done].
      destruct (out !! "transl") as [tr|]; [|done].
      destruct (out !! "root_rotations_mat") as [rm|]; [|done].
      assert (∀ x : pyobj, get_shape x ≠ Raise (HTTPException c detail)) as Hshape
        by (by intros [| |[]]).
      assert (∀ x : pyobj, _tensor_to_list x ≠ Raise (HTTPException c detail)) as Hser.
      { intros [dev a|a|[]]; try done; rewrite ?tensor_to_list_torch;
          unfold _tensor_to_list, getitem0, ndarray_first; simpl;
          destruct (shape a) as [|[|b] rest]; done. }
      destruct (get_shape kp) as [s|e] eqn:Hs; [|intros; simplify_eq; by destruct (Hshape kp)].
      destruct (s !! 1%nat); [|done].
      destruct (_tensor_to_list kp) eqn:H1; [|intros; simplify_eq; by destruct (Hser kp)].
      destruct (_tensor_to_list r6) eqn:H2; [|intros; simplify_eq; by destruct (Hser r6)].
      destruct (_tensor_to_list tr) eqn:H3; [|intros; simplify_eq; by destruct (Hser tr)].
      destruct (_tensor_to_list rm) eqn:H4; [|intros; simplify_eq; by destruct (Hser rm)].
      done.
    + destruct (Py.is_Exception e) eqn:He; [congruence|].
      intros [= ->]. done.
  - unfold unavailable. intros Hgen. injection Hgen as Ho _. revert Ho.
    destruct (Py.is_FileNotFoundError e); [congruence|].
    destruct (Py.is_Exception e) eqn:He; [congruence|].
    intros ->. done.
Qed.

Lemma generate_motion_only_503_witness :
  503 = 503.
Proof.
  apply (generate_motion_only_503 Demo.globals Scenario.generation_fails Demo.request
           Scenario.warm_state 503
           "Generation failed: CUDA error: out of memory"
           (scratch_removed "/tmp/hymotion_k3x9" Scenario.warm_state)
           "/tmp/hymotion_k3x9");
    reflexivity.
Defined.





(** What a response is made of. *)
Lemma generate_motion_returns g w req st resp st' :
  generate_motion g w req st = (Return resp, st') →
  ∃ r d out,
    (get_runtime g w st).1 = Return r
    ∧ mkdtemp w "hymotion_" = Return d
    ∧ call_generate w r (request_args req d) = Return out
    ∧ assemble req out = Return resp.
Proof.
  rewrite generate_motion_unfold.
  destruct (get_runtime g w st) as [[r|e] st1]; [|done].
  destruct (mkdtemp w "hymotion_") as [d|e]; [|done].
  unfold serve. destruct (call_generate w r (request_args req d)) as [out|e] eqn:Hout;
    [|done].
  intros [= Hresp _]. by exists r, d, out.
Qed.

Lemma assemble_returns req out resp :
  assemble req out = Return resp →
  ∃ kp r6 tr rm s n,
    out !! "keypoints3d" = Some kp ∧ out !! "rot6d" = Some r6
    ∧ out !! "transl" = Some tr ∧ out !! "root_rotations_mat" = Some rm
    ∧ get_shape kp = Return s ∧ s !! 1%nat = Some n
    ∧ _tensor_to_list kp = Return (keypoints3d (motion resp))
    ∧ _tensor_to_list r6 = Return (rot6d (motion resp))
    ∧ _tensor_to_list tr = Return (transl (motion resp))
    ∧ _tensor_to_list rm = Return (root_rotations_mat (motion resp))
    ∧ num_frames (motion resp) = Z.of_nat n
    ∧ fps (motion resp) = 30
    ∧ meta resp = {| meta_text := text req; meta_duration := duration req;
                     meta_seed := seed req |}.
Proof.
  unfold assemble, dict_getitem, shape_at, mbind, outcome_bind.
  destruct (out !! "keypoints3d") as [kp|] eqn:H1; [|done].
  destruct (out !! "rot6d") as [r6|] eqn:H2; [|done].
  destruct (out !! "transl") as [tr|] eqn:H3; [|done].
  destruct (out !! "root_rotations_mat") as [rm|] eqn:H4; [|done].
  destruct (get_shape kp) as [s|] eqn:Hs; [|done].
  destruct (s !! 1%nat) as [n|] eqn:Hn; [|done].
  destruct (_tensor_to_list kp) eqn:S1; [|done].
  destruct (_tensor_to_list r6) eqn:S2; [|done].
  destruct (_tensor_to_list tr) eqn:S3; [|done].
  destruct (_tensor_to_list rm) eqn:S4; [|done].
  intros [= <-]. exists kp, r6, tr, rm, s, n. simpl. by repeat split.
Qed.

(** X21. In every response, [keypoints3d] is a list with exactly
    [num_frames] items: the frame count the client reads matches the data
    it gets. *)
Theorem response_keypoints_length g w req st resp st' :
  generate_motion g w req st = (Return resp, st') →
  ∃ frames_list,
    keypoints3d (motion resp) = PList frames_list
    ∧ Z.of_nat (length frames_list) = num_frames (motion resp).
Proof.
  intros Hgen.
  destruct (generate_motion_returns g w req st resp st' Hgen) as (r & d & out & _ & _ & _ & Hasm).
  destruct (assemble_returns req out resp Hasm)
    as (kp & _ & _ & _ & s & n & _ & _ & _ & _ & Hs & Hn & Hkp & _ & _ & _ & Hnum & _).
  destruct (tensor_to_list_second_axis kp s n _ Hs Hn Hkp) as (l & Hl & Hlen).
  exists l. split; [done|]. by rewrite Hnum, Hlen.
Qed.

Lemma response_keypoints_length_witness :
  ∃ frames_list,
    keypoints3d (motion Demo.response) = PList frames_list
    ∧ Z.of_nat (length frames_list) = num_frames (motion Demo.response).
Proof.
  apply (response_keypoints_length Demo.globals Demo.world Demo.request initial_state
           Demo.response
           (generate_motion Demo.globals Demo.world Demo.request initial_state).2).
  reflexivity.
Defined.

(** X22. Every response carries, under each of the four names, the
    serialisation of the array the model returned under that name, and
    echoes the request's text, duration and seed. *)
Theorem response_fields g w req st resp st' :
  generate_motion g w req st = (Return resp, st') →
  ∃ r d out kp r6 tr rm,
    call_generate w r (request_args req d) = Return out
    ∧ out !! "keypoints3d" = Some kp ∧ _tensor_to_list kp = Return (keypoints3d (motion resp))
    ∧ out !! "rot6d" = Some r6 ∧ _tensor_to_list r6 = Return (rot6d (motion resp))
    ∧ out !! "transl" = Some tr ∧ _tensor_to_list tr = Return (transl (motion resp))
    ∧ out !! "root_rotations_mat" = Some rm
    ∧ _tensor_to_list rm = Return (root_rotations_mat (motion resp))
    ∧ meta_text (meta resp) = text req
    ∧ meta_duration (meta resp) = duration req
    ∧ meta_seed (meta resp) = seed req.
Proof.
  intros Hgen.
  destruct (generate_motion_returns g w req st resp st' Hgen)
    as (r & d & out & _ & _ & Hout & Hasm).
  destruct (assemble_returns req out resp Hasm)
    as (kp & r6 & tr & rm & s & n & H1 & H2 & H3 & H4 & _ & _ & S1 & S2 & S3 & S4 & _ & _ & Hm).
  exists r, d, out, kp, r6, tr, rm. rewrite Hm. by repeat split.
Qed.

Lemma response_fields_witness :
  ∃ r d out kp r6 tr rm,
    call_generate Demo.world r (request_args Demo.request d) = Return out
    ∧ out !! "keypoints3d" = Some kp
    ∧ _tensor_to_list kp = Return (keypoints3d (motion Demo.response))
    ∧ out !! "rot6d" = Some r6 ∧ _tensor_to_list r6 = Return (rot6d (motion Demo.response))
    ∧ out !! "transl" = Some tr ∧ _tensor_to_list tr = Return (transl (motion Demo.response))
    ∧ out !! "root_rotations_mat" = Some rm
    ∧ _tensor_to_list rm = Return (root_rotations_mat (motion Demo.response))
    ∧ meta_text (meta Demo.response) = text Demo.request
    ∧ meta_duration (meta Demo.response) = duration Demo.request
    ∧ meta_seed (meta Demo.response) = seed Demo.request.
Proof.
  apply (response_fields Demo.globals Demo.world Demo.request initial_state Demo.response
           (generate_motion Demo.globals Demo.world Demo.request initial_state).2).
  reflexivity.
Defined.


(** ** The scratch directory *)

Lemma tmpdirs_scratch_removed d st :
  tmpdirs (scratch_removed d st) = filter (fun x => x ≠ d) (tmpdirs st).
Proof. reflexivity. Qed.

(** X23. The scratch directory never outlives the request: whatever the
    outcome, the directory the request created is not among the existing
    ones afterwards, and the request adds no other. *)
Theorem generate_motion_scratch g w req st :
  (∀ x, x ∈ tmpdirs (generate_motion g w req st).2 → x ∈ tmpdirs st)
  ∧ (∀ r d,
       (get_runtime g w st).1 = Return r →
       mkdtemp w "hymotion_" = Return d →
       d ∉ tmpdirs (generate_motion g w req st).2).
Proof.
  rewrite generate_motion_unfold.
  pose proof (get_runtime_tmpdirs g w st) as Htmp.
  destruct (get_runtime g w st) as [[r|e] st1]; cbn [fst snd] in *.
  - destruct (mkdtemp w "hymotion_") as [d|e]; cbn [fst snd].
    + rewrite tmpdirs_scratch_removed, Htmp. split.
      * intros x Hx. by apply list_elem_of_filter in Hx as [_ Hx].
      * intros _ d' _ [= <-] Hd. by apply list_elem_of_filter in Hd as [Hd _].
    + rewrite Htmp. split; [done|]. intros; simplify_eq.
  - rewrite Htmp. split; [done|]. intros; simplify_eq.
Qed.

Lemma generate_motion_scratch_witness :
  "/tmp/hymotion_k3x9"
  ∉ tmpdirs (generate_motion Demo.globals Scenario.generation_fails Demo.request
               initial_state).2.
Proof.
  apply (proj2 (generate_motion_scratch Demo.globals Scenario.generation_fails
                  Demo.request initial_state)
           (Some Scenario.warm_runtime) "/tmp/hymotion_k3x9");
    reflexivity.
Defined.

(** X24. A request served by the cached instance leaves the process state
    exactly as it found it, whatever its outcome: the singleton, the
    counters and the output are untouched and the scratch directory, whose
    name was not in use, is gone. *)
Theorem generate_motion_warm_state g w req st rt d :
  _runtime st = Some rt →
  mkdtemp w "hymotion_" = Return d →
  d ∉ tmpdirs st →
  (generate_motion g w req st).2 = st.
Proof.
  intros Hrt Hdir Hfresh.
  rewrite generate_motion_unfold, (get_runtime_cached g w st rt Hrt), Hdir. simpl.
  unfold scratch_removed, set_tmpdirs.
  assert (filter (fun x => x ≠ d) (tmpdirs st) = tmpdirs st) as ->.
  { induction (tmpdirs st) as [|x l IH]; [done|].
    apply not_elem_of_cons in Hfresh as [Hne Hl].
    rewrite filter_cons_True by done. by rewrite IH. }
  by destruct st.
Qed.

Lemma generate_motion_warm_state_witness :
  (generate_motion Demo.globals Scenario.generation_fails Demo.request
     Scenario.warm_state).2
  = Scenario.warm_state.
Proof.
  apply (generate_motion_warm_state Demo.globals Scenario.generation_fails Demo.request
           Scenario.warm_state Scenario.warm_runtime "/tmp/hymotion_k3x9").
  - reflexivity.
  - reflexivity.
  - apply not_elem_of_nil.
Defined.

(** ** Overlapping callers: how far the race can go *)

Lemma sum_list_with_insert {A} (f : A → nat) (l : list A) i x y :
  l !! i = Some x →
  (sum_list_with f (<[i := y]> l) + f x = sum_list_with f l + f y)%nat.
Proof.
  revert i. induction l as [|a l IH]; intros [|i] Hi; simplify_eq/=; [lia|].
  specialize (IH i Hi). lia.
Qed.

(** One step of a caller: the constructor is entered only by a caller that
    had not entered it, and [_apply_mmgp] only by one that constructed. *)
Lemma thread_step_counts g w p st :
  (ctor_calls (Threads.thread_step g w p st).2
   + may_construct (Threads.thread_step g w p st).1
   ≤ ctor_calls st + may_construct p)%nat
  ∧ (mmgp_calls (Threads.thread_step g w p st).2
     + owes_apply (Threads.thread_step g w p st).1 + ctor_calls st
     ≤ ctor_calls (Threads.thread_step g w p st).2 + mmgp_calls st + owes_apply p)%nat.
Proof.
  destruct p as [| | |rt| | |o]; simpl.
  - destruct (_runtime st); simpl; lia.
  - destruct (negb _); simpl; lia.
  - unfold new_T2MRuntime. py_unfold. simpl.
    destruct (T2MRuntime_init w _); simpl; lia.
  - lia.
  - destruct (apply_mmgp_frame w (_runtime st) st) as (_ & Hc & Hm & _).
    destruct (_apply_mmgp w (_runtime st) st) as [[[]|e] st']; simpl in *; lia.
  - lia.
  - lia.
Qed.

Lemma run_counts g w sched ts st bound :
  (ctor_calls st + sum_list_with may_construct ts ≤ bound)%nat →
  (mmgp_calls st + sum_list_with owes_apply ts ≤ ctor_calls st)%nat →
  (ctor_calls (Threads.run g w sched (ts, st)).2
   + sum_list_with may_construct (Threads.run g w sched (ts, st)).1 ≤ bound)%nat
  ∧ (mmgp_calls (Threads.run g w sched (ts, st)).2
     + sum_list_with owes_apply (Threads.run g w sched (ts, st)).1
     ≤ ctor_calls (Threads.run g w sched (ts, st)).2)%nat.
Proof.
  revert ts st. induction sched as [|i sched IH]; intros ts st H1 H2; [done|].
  unfold Threads.run in *. simpl.
  assert (∃ ts1 st1, Threads.system_step g w (ts, st) i = (ts1, st1)
            ∧ (ctor_calls st1 + sum_list_with may_construct ts1 ≤ bound)%nat
            ∧ (mmgp_calls st1 + sum_list_with owes_apply ts1 ≤ ctor_calls st1)%nat)
    as (ts1 & st1 & -> & H1' & H2').
  { unfold Threads.system_step. simpl.
    destruct (ts !! i) as [p|] eqn:Hp; [|by eauto].
    pose proof (thread_step_counts g w p st) as (Hc & Hm).
    destruct (Threads.thread_step g w p st) as [p' st']. simpl in *.
    pose proof (sum_list_with_insert may_construct ts i p p' Hp).
    pose proof (sum_list_with_insert owes_apply ts i p p' Hp).
    eexists _, _. split; [done|]. split; lia. }
  by apply IH.
Qed.

(** X25. However [n] first callers interleave, the constructor is entered
    at most [n] times and [_apply_mmgp] no more often than the
    constructor: a caller constructs at most once, and tunes only after it
    has constructed. *)
Theorem overlapping_first_use_bound g w n sched :
  (ctor_calls (Threads.run g w sched (Threads.first_use n)).2 ≤ n)%nat
  ∧ (mmgp_calls (Threads.run g w sched (Threads.first_use n)).2
     ≤ ctor_calls (Threads.run g w sched (Threads.first_use n)).2)%nat.
Proof.
  assert (∀ k, sum_list_with may_construct (replicate k Threads.AtCheck) = k
               ∧ sum_list_with owes_apply (replicate k Threads.AtCheck) = 0%nat) as Hinit.
  { induction k as [|k [IH1 IH2]]; [done|]. simpl. by rewrite IH1, IH2. }
  destruct (Hinit n) as (H1 & H2).
  destruct (run_counts g w sched (replicate n Threads.AtCheck) initial_state n)
    as (Hc & Hm).
  - simpl. lia.
  - simpl. lia.
  - unfold Threads.first_use. split; lia.
Qed.


(** ** What gets constructed *)

(** X26. The instance a call puts into the empty slot was built from the
    module's two paths, with the text encoder, on the default devices and
    without a remote prompt-engineering host; it skips weight loading
    exactly when the checkpoint file does not exist. *)
Theorem get_runtime_instance_args g w st rt :
  _runtime st = None →
  _runtime (get_runtime g w st).2 = Some rt →
  config_path (rt_args rt) = CONFIG_PATH g
  ∧ ckpt_name (rt_args rt) = CKPT_PATH g
  ∧ skip_text (rt_args rt) = false
  ∧ device_ids (rt_args rt) = None
  ∧ prompt_engineering_host (rt_args rt) = None
  ∧ prompt_engineering_model_path (rt_args rt) = None
  ∧ (skip_model_loading (rt_args rt) = true ↔ path_exists w (CKPT_PATH g) = false)
  ∧ path_exists w (CONFIG_PATH g) = true
  ∧ rt_id rt = ctor_calls st.
Proof.
  intros Hrt Hslot.
  destruct (get_runtime_fills_slot g w st rt Hrt Hslot) as (-> & _).
  simpl. repeat split; try done.
  - by intros ?%negb_true_iff.
  - by intros ->.
  - destruct (path_exists w (CONFIG_PATH g)) eqn:Hcfg; [done|].
    rewrite (get_runtime_config_absent g w st Hrt Hcfg) in Hslot. simpl in Hslot.
    congruence.
Qed.

Lemma get_runtime_instance_args_witness :
  config_path (rt_args Scenario.warm_runtime) = CONFIG_PATH Demo.globals
  ∧ ckpt_name (rt_args Scenario.warm_runtime) = CKPT_PATH Demo.globals
  ∧ skip_text (rt_args Scenario.warm_runtime) = false
  ∧ device_ids (rt_args Scenario.warm_runtime) = None
  ∧ prompt_engineering_host (rt_args Scenario.warm_runtime) = None
  ∧ prompt_engineering_model_path (rt_args Scenario.warm_runtime) = None
  ∧ (skip_model_loading (rt_args Scenario.warm_runtime) = true
     ↔ path_exists Demo.world (CKPT_PATH Demo.globals) = false)
  ∧ path_exists Demo.world (CONFIG_PATH Demo.globals) = true
  ∧ rt_id Scenario.warm_runtime = ctor_calls initial_state.
Proof.
  apply (get_runtime_instance_args Demo.globals Demo.world initial_state
           Scenario.warm_runtime);
    reflexivity.
Defined.

(** X27. Once the constructor has returned, the instance is the singleton
    however [_apply_mmgp] ends: whether the call returns or raises, the
    slot holds the new instance, and every later call, in whatever world,
    returns it without constructing or tuning again. *)
Theorem get_runtime_caches_once_constructed g w st (ws : list World) :
  _runtime st = None →
  path_exists w (CONFIG_PATH g) = true →
  T2MRuntime_init w (runtime_args g w (negb (path_exists w (CKPT_PATH g)))) = None →
  let st1 := (get_runtime g w st).2 in
  _runtime st1 = Some (fresh_runtime g w st)
  ∧ run_calls (get_runtime g) ws st1
    = (map (fun _ => Return (Some (fresh_runtime g w st))) ws, st1).
Proof.
  intros Hrt Hcfg Hinit st1.
  assert (_runtime st1 = Some (fresh_runtime g w st)) as Hslot.
  { subst st1. rewrite (get_runtime_constructs g w st Hrt Hcfg Hinit). cbn [fst snd].
    by destruct (apply_mmgp_frame w (Some (fresh_runtime g w st))
                   (after_construction st (fresh_runtime g w st))) as (-> & _). }
  split; [done|]. by apply run_calls_cached.
Qed.

Lemma get_runtime_caches_once_constructed_witness :
  let st1 := (get_runtime Demo.globals Demo.misconfigured initial_state).2 in
  _runtime st1 = Some (fresh_runtime Demo.globals Demo.misconfigured initial_state)
  ∧ run_calls (get_runtime Demo.globals) [Demo.misconfigured; Demo.unconfigured] st1
    = (map (fun _ => Return (Some (fresh_runtime Demo.globals Demo.misconfigured
                                     initial_state)))
         [Demo.misconfigured; Demo.unconfigured],
       st1).
Proof.
  apply (get_runtime_caches_once_constructed Demo.globals Demo.misconfigured
           initial_state [Demo.misconfigured; Demo.unconfigured]);
    reflexivity.
Defined.
